(** * money-ai-app: the gateway of [src/server.ts]

    A shallow embedding of the Express handlers of [src/server.ts]: order
    creation and payment verification against the payment provider, and the
    two text-generation endpoints (single answer and Server-Sent-Events
    relay).  Handlers are written in a small state-and-exception monad over
    a [world] that records every call a handler makes on the response
    object, on the socket server and on the upstream clients. *)

From Stdlib Require Import ZArith List String Ascii Bool Lia.
From Stdlib Require Import Floats.SpecFloat.
From Stdlib Require Import Numbers.DecimalString.
Import ListNotations.

Local Open Scope string_scope.
Local Open Scope Z_scope.
Set Warnings "-register-all,-notation-for-abbreviation".

(** ** JavaScript values *)

Module JS.

(** A JS number is an IEEE 754 binary64 value. *)
Definition number := spec_float.
Definition prec : Z := 53.
Definition emax : Z := 1024.

Definition NaN : number := S754_nan.
Definition pzero : number := S754_zero false.
Definition of_Z (z : Z) : number := binary_normalize prec emax z 0 false.
Definition mul : number -> number -> number := SFmul prec emax.
Definition div : number -> number -> number := SFdiv prec emax.
(** [x <= y] on numbers: false as soon as one side is NaN. *)
Definition leb : number -> number -> bool := SFleb.

(** Values as [JSON.parse] builds them, plus [undefined] for an absent
    property. *)
Inductive value :=
| Undefined
| Null
| Bool (b : bool)
| Num (n : number)
| Str (s : string)
| Arr (items : list value)
| Obj (props : list (string * value)).

Definition nonempty (s : string) : bool :=
  match s with EmptyString => false | String _ _ => true end.

(** ToBoolean: [undefined], [null], [false], [+0], [-0], [NaN] and the empty
    string are falsy, everything else is truthy. *)
Definition truthy (v : value) : bool :=
  match v with
  | Undefined | Null => false
  | Bool b => b
  | Num (S754_zero _) | Num S754_nan => false
  | Num _ => true
  | Str s => nonempty s
  | Arr _ | Obj _ => true
  end.

Fixpoint assoc (k : string) (l : list (string * value)) : value :=
  match l with
  | [] => Undefined
  | (k', v) :: r => if String.eqb k k' then v else assoc k r
  end.

(** Property read with optional chaining, [o?.k]: [undefined] when [o] is
    [undefined] or [null], and what [o.k] gives otherwise. *)
Definition get (o : value) (k : string) : value :=
  match o with
  | Obj l => assoc k l
  | _ => Undefined
  end.

(** [typeof v] *)
Definition typeof (v : value) : string :=
  match v with
  | Undefined => "undefined"
  | Null | Arr _ | Obj _ => "object"
  | Bool _ => "boolean"
  | Num _ => "number"
  | Str _ => "string"
  end.

(** The string held by a value of type string. *)
Definition str_of (v : value) : string :=
  match v with Str s => s | _ => "" end.

(** [a || b] where [a] is an environment variable (a string or undefined)
    and [b] a string. *)
Definition env_or (a : option string) (b : string) : string :=
  match a with
  | Some s => if nonempty s then s else b
  | None => b
  end.

(** [a === b] with a string on the left. *)
Definition strict_eq_str (a : string) (b : value) : bool :=
  match b with
  | Str s => String.eqb a s
  | _ => false
  end.

(** The exact integer [floor (x + 1/2)] of the finite number
    [(-1)^s * m * 2^e]. *)
Definition round_Z (s : bool) (m : positive) (e : Z) : Z :=
  let n := cond_Zopp s (Zpos m) in
  if 0 <=? e then n * 2 ^ e
  else (2 * n + 2 ^ (- e)) / 2 ^ (- e + 1).

(** [Math.round]: the nearest integer, ties towards +infinity; zeros,
    infinities and NaN are returned as they are, and a result of zero keeps
    the sign of the argument. *)
Definition Math_round (x : number) : number :=
  match x with
  | S754_finite s m e =>
      let r := round_Z s m e in
      if r =? 0 then S754_zero s else of_Z r
  | _ => x
  end.

(** Decimal rendering of an integer, as a template literal prints an integral
    number below 1e21. *)
Definition dec (z : Z) : string := NilZero.string_of_int (Z.to_int z).

Definition dquote : ascii := ascii_of_N 34.
Definition bslash : ascii := ascii_of_N 92.
Definition LF : ascii := ascii_of_N 10.

Definition hex_digit (n : N) : ascii :=
  if (n <? 10)%N then ascii_of_N (48 + n) else ascii_of_N (87 + n).

(** [JSON.stringify] on one character of a string. *)
Definition quote_char (c : ascii) : string :=
  let n := N_of_ascii c in
  if (n =? 34)%N then String bslash (String dquote EmptyString)
  else if (n =? 92)%N then String bslash (String bslash EmptyString)
  else if (n =? 8)%N then String bslash "b"
  else if (n =? 12)%N then String bslash "f"
  else if (n =? 10)%N then String bslash "n"
  else if (n =? 13)%N then String bslash "r"
  else if (n =? 9)%N then String bslash "t"
  else if (n <? 32)%N then
    String bslash ("u00" ++ String (hex_digit (n / 16)) (String (hex_digit (n mod 16)) EmptyString))
  else String c EmptyString.

Fixpoint quote_chars (s : string) : string :=
  match s with
  | EmptyString => EmptyString
  | String c r => quote_char c ++ quote_chars r
  end.

(** [JSON.stringify(s)] for a string [s]. *)
Definition stringify_string (s : string) : string :=
  String dquote (quote_chars s ++ String dquote EmptyString).

(** [JSON.stringify({ k: v })] for one string-valued property. *)
Definition stringify_obj1 (k v : string) : string :=
  "{" ++ stringify_string k ++ ":" ++ stringify_string v ++ "}".

Arguments of_Z : simpl never.
Arguments mul : simpl never.
Arguments div : simpl never.
Arguments leb : simpl never.
Arguments Math_round : simpl never.
Arguments truthy : simpl never.
Arguments dec : simpl never.
Arguments stringify_obj1 : simpl never.

End JS.

(** ** The world a handler runs in *)

Module Server.
Import JS.

(** A thrown error, by its message. *)
Definition exn := string.

(** The async iterator [result.stream] of the generation client: finitely
    many chunks, each with the text [chunk.text()] returns, ended by
    exhaustion or by a rejection.  A [chunk.text()] that throws ends the loop
    the same way as a rejected pull and is an [SRaise] at that position. *)
Inductive stream :=
| SDone
| SRaise (e : exn)
| SChunk (text : string) (rest : stream).

(** Every call a handler makes on the outside world. *)
Inductive effect :=
| ResJson (code : Z) (body : value)
| ResWriteHead (code : Z) (headers : list (string * string))
| ResWrite (chunk : string)
| ResEnd (chunk : option string)
| IoEmit (event : string) (payload : value)
| CreateHmac (algorithm key payload : string)
| OrdersCreate (options : value)
| GenerateContent (apiKey model prompt : string)
| GenerateContentStream (apiKey model prompt : string)
| StreamNext
| ConsoleError (label : string) (error : exn).

(** [trace]: the calls made so far, oldest first.  [now]: what [Date.now()]
    returns.  [pulled]: how many times the stream iterator was advanced.
    [hangup_after = Some k]: the client closes the connection while the
    handler awaits pull number [k + 1].  [delivered]: the response calls
    that reached the client, i.e. those made while it was connected. *)
Record world := mkWorld {
  trace : list effect;
  now : Z;
  pulled : nat;
  hangup_after : option nat;
  delivered : list effect
}.

Definition connected (w : world) : bool :=
  match hangup_after w with
  | None => true
  | Some k => Nat.leb (pulled w) k
  end.

Definition start (t : Z) (hangup : option nat) : world :=
  mkWorld [] t 0 hangup [].

Inductive outcome (A : Type) :=
| Ret (a : A)
| Throw (e : exn).
Arguments Ret {A} a.
Arguments Throw {A} e.

Definition M (A : Type) : Type := world -> outcome A * world.

Definition ret {A} (a : A) : M A := fun w => (Ret a, w).
Definition throw {A} (e : exn) : M A := fun w => (Throw e, w).

Definition bind {A B} (c : M A) (k : A -> M B) : M B :=
  fun w =>
    match c w with
    | (Ret a, w1) => k a w1
    | (Throw e, w1) => (Throw e, w1)
    end.

(** [try { c } catch (error) { h error }] *)
Definition try_catch {A} (c : M A) (h : exn -> M A) : M A :=
  fun w =>
    match c w with
    | (Ret a, w1) => (Ret a, w1)
    | (Throw e, w1) => h e w1
    end.

(** [try { c } finally { f }] *)
Definition try_finally {A} (c : M A) (f : M unit) : M A :=
  fun w =>
    match c w with
    | (r, w1) =>
        match f w1 with
        | (Ret _, w2) => (r, w2)
        | (Throw e, w2) => (Throw e, w2)
        end
    end.

Declare Scope js_scope.
Delimit Scope js_scope with js.
Notation "x <- c ;; k" := (bind c (fun x => k))
  (at level 61, c at next level, right associativity) : js_scope.
Notation "c ;; k" := (bind c (fun _ => k))
  (at level 61, right associativity) : js_scope.
Local Open Scope js_scope.

(** A call that only leaves a mark in the trace. *)
Definition call (e : effect) : M unit :=
  fun w => (Ret tt, mkWorld (trace w ++ [e]) (now w) (pulled w) (hangup_after w) (delivered w)).

(** A call on the response object: it is always made, and it reaches the
    client when the connection is still open. *)
Definition respond (e : effect) : M unit :=
  fun w =>
    (Ret tt,
     mkWorld (trace w ++ [e]) (now w) (pulled w) (hangup_after w)
             (if connected w then delivered w ++ [e] else delivered w)).

(** Awaiting a value of the upstream: the call is recorded, then the promise
    resolves or rejects. *)
Definition await {A} (e : effect) (r : exn + A) : M A :=
  fun w =>
    let w1 := mkWorld (trace w ++ [e]) (now w) (pulled w) (hangup_after w) (delivered w) in
    match r with
    | inr a => (Ret a, w1)
    | inl err => (Throw err, w1)
    end.

Definition lift {A} (r : exn + A) : M A :=
  fun w => match r with inr a => (Ret a, w) | inl err => (Throw err, w) end.

Definition Date_now : M Z := fun w => (Ret (now w), w).

(** Whether a request came with a parsed body: [req.body] is neither
    [undefined] nor [null]. *)
Definition present (o : value) : bool :=
  match o with
  | Undefined | Null => false
  | _ => true
  end.

Definition undefined_or_null (o : value) : string :=
  match o with
  | Null => "null"
  | _ => "undefined"
  end.

(** [o.k]: reading a property of [undefined] or [null] throws a
    TypeError. *)
Definition read (o : value) (k : string) : M value :=
  if present o then ret (get o k)
  else throw ("TypeError: Cannot read properties of " ++ undefined_or_null o
              ++ " (reading '" ++ k ++ "')").

(** One property of [const { k, ... } = o]: destructuring [undefined] or
    [null] throws a TypeError. *)
Definition destructure (o : value) (k : string) : M value :=
  if present o then ret (get o k)
  else throw ("TypeError: Cannot destructure property '" ++ k
              ++ "' of 'req.body' as it is " ++ undefined_or_null o ++ ".").

(** One pull on the stream iterator. *)
Definition next : M unit :=
  fun w => (Ret tt, mkWorld (trace w ++ [StreamNext]) (now w) (S (pulled w)) (hangup_after w) (delivered w)).

Definition res_json (body : value) : M unit := respond (ResJson 200 body).
Definition res_status_json (code : Z) (body : value) : M unit := respond (ResJson code body).
Definition res_writeHead (code : Z) (headers : list (string * string)) : M unit :=
  respond (ResWriteHead code headers).
Definition res_write (chunk : string) : M unit := respond (ResWrite chunk).
Definition res_end (chunk : option string) : M unit := respond (ResEnd chunk).
Definition io_emit (event : string) (payload : value) : M unit := call (IoEmit event payload).
Definition console_error (label : string) (error : exn) : M unit := call (ConsoleError label error).

(** [for await (const chunk of s) { body (chunk.text()) }] *)
Fixpoint for_await (s : stream) (body : string -> M unit) : M unit :=
  match s with
  | SDone => next ;; ret tt
  | SRaise e => next ;; throw e
  | SChunk text rest => next ;; body text ;; for_await rest body
  end.

(** ** The handlers *)

(** A handler is given [req.body]: the parsed JSON body of the request, or
    [Undefined] when the request carried none. *)

Section Handlers.

(** [process.env] *)
Variable process_env : string -> option string.

(** The upstream services and the library conversions the handlers rely on;
    none of them is part of the source file. *)

(** [crypto.createHmac('sha256', key).update(payload).digest('hex')] *)
Variable hmac_sha256_hex : string -> string -> string.
(** What [razorpay.orders.create(options)] settles to. *)
Variable orders_create : value -> exn + value.
(** What [model.generateContent(prompt)] followed by [result.response.text()]
    settles to, for a client built with [apiKey] and [model]. *)
Variable generateContent : string -> string -> string -> exn + string.
(** What [model.generateContentStream(prompt)] settles to. *)
Variable generateContentStream : string -> string -> string -> exn + stream.
(** ToNumber on a string, and on an array or object (which may throw). *)
Variable StringToNumber : string -> number.
Variable ObjectToNumber : value -> exn + number.
(** ToString on a number, and on an array or object (which may throw). *)
Variable NumberToString : number -> string.
Variable ObjectToString : value -> exn + string.

(** [Number(v)] *)
Definition to_number (v : value) : exn + number :=
  match v with
  | Undefined => inr NaN
  | Null => inr pzero
  | Bool b => inr (if b then of_Z 1 else pzero)
  | Num n => inr n
  | Str s => inr (StringToNumber s)
  | Arr _ | Obj _ => ObjectToNumber v
  end.
Definition Number (v : value) : M number := lift (to_number v).

(** [`${v}`] *)
Definition to_string (v : value) : exn + string :=
  match v with
  | Undefined => inr "undefined"
  | Null => inr "null"
  | Bool b => inr (if b then "true" else "false")
  | Num n => inr (NumberToString n)
  | Str s => inr s
  | Arr _ | Obj _ => ObjectToString v
  end.
Definition ToString (v : value) : M string := lift (to_string v).

Definition createHmac_digest (key payload : string) : M string :=
  call (CreateHmac "sha256" key payload) ;;
  ret (hmac_sha256_hex key payload).

(** Lines 32-33. *)
Definition razorpayKeyId : string := env_or (process_env "RAZORPAY_KEY_ID") "".
Definition razorpayKeySecret : string := env_or (process_env "RAZORPAY_KEY_SECRET") "".

(** [POST /api/razorpay/create-order], lines 50-72. *)
Definition create_order (body : value) : M unit :=
  try_catch
    (if negb (nonempty razorpayKeyId) || negb (nonempty razorpayKeySecret) then
       res_status_json 500
         (Obj [("success", Bool false); ("error", Str "Razorpay keys not configured")])
     else
       amount <- read body "amount" ;;
       amountInRupees <- Number amount ;;
       if negb (truthy (Num amountInRupees)) || leb amountInRupees pzero then
         res_status_json 400 (Obj [("success", Bool false); ("error", Str "Invalid amount")])
       else
         t <- Date_now ;;
         let options :=
           Obj [("amount", Num (Math_round (mul amountInRupees (of_Z 100))));
                ("currency", Str "INR");
                ("receipt", Str ("rcpt_" ++ dec t))] in
         order <- await (OrdersCreate options) (orders_create options) ;;
         res_json (Obj [("success", Bool true); ("order", order); ("key_id", Str razorpayKeyId)]))
    (fun error =>
       console_error "Error creating order:" error ;;
       res_status_json 500 (Obj [("success", Bool false); ("error", Str "Failed to create order")])).

(** [POST /api/razorpay/verify-payment], lines 74-99. *)
Definition verify_payment (body : value) : M unit :=
  try_catch
    (razorpay_order_id <- destructure body "razorpay_order_id" ;;
     razorpay_payment_id <- destructure body "razorpay_payment_id" ;;
     razorpay_signature <- destructure body "razorpay_signature" ;;
     if negb (truthy razorpay_order_id) || negb (truthy razorpay_payment_id)
        || negb (truthy razorpay_signature) then
       res_status_json 400 (Obj [("success", Bool false); ("error", Str "Missing fields")])
     else
       o <- ToString razorpay_order_id ;;
       p <- ToString razorpay_payment_id ;;
       let payload := o ++ "|" ++ p in
       expectedSignature <- createHmac_digest razorpayKeySecret payload ;;
       let isValid := strict_eq_str expectedSignature razorpay_signature in
       (if isValid then
          io_emit "payment:verified"
            (Obj [("razorpay_order_id", razorpay_order_id);
                  ("razorpay_payment_id", razorpay_payment_id)])
        else ret tt) ;;
       res_json (Obj [("success", Bool isValid)]))
    (fun error =>
       console_error "Error verifying payment:" error ;;
       res_status_json 500 (Obj [("success", Bool false); ("error", Str "Verification failed")])).

(** Lines 104 and 125. *)
Definition gemini_apiKey : string :=
  env_or (process_env "GEMINI_API_KEY") (env_or (process_env "GOOGLE_API_KEY") "").

Definition gemini_model : string := "gemini-1.5-flash".

(** [POST /api/gemini/chat], lines 101-121. *)
Definition chat (body : value) : M unit :=
  try_catch
    (prompt <- read body "prompt" ;;
     let apiKey := gemini_apiKey in
     if negb (nonempty apiKey) then
       res_status_json 500 (Obj [("error", Str "GEMINI_API_KEY not configured")])
     else if negb (truthy prompt) || negb (String.eqb (typeof prompt) "string") then
       res_status_json 400 (Obj [("error", Str "Invalid prompt")])
     else
       text <- await (GenerateContent apiKey gemini_model (str_of prompt))
                     (generateContent apiKey gemini_model (str_of prompt)) ;;
       res_json (Obj [("text", Str text)]))
    (fun error =>
       console_error "Gemini chat error:" error ;;
       res_status_json 500 (Obj [("error", Str "Failed to generate response")])).

Definition LFLF : string := String LF (String LF EmptyString).

(** The wire events of the relay. *)
Definition data_event (text : string) : string :=
  "data: " ++ stringify_obj1 "text" text ++ LFLF.
Definition error_event : string :=
  "data: " ++ stringify_obj1 "error" "Streaming failed" ++ LFLF.
Definition done_event_name : string := "event: done" ++ String LF EmptyString.
Definition done_event_data : string := "data: {}" ++ LFLF.

Definition json_headers : list (string * string) :=
  [("Content-Type", "application/json")].
Definition sse_headers : list (string * string) :=
  [("Content-Type", "text/event-stream"); ("Cache-Control", "no-cache");
   ("Connection", "keep-alive")].

(** The body of the [for await] loop, lines 151-154. *)
Definition relay_chunk (text : string) : M unit :=
  if nonempty text then res_write (data_event text) else ret tt.

(** [POST /api/gemini/chat-stream], lines 124-167. *)
Definition chat_stream (body : value) : M unit :=
  let apiKey := gemini_apiKey in
  if negb (nonempty apiKey) then
    res_writeHead 500 json_headers ;;
    res_end (Some (stringify_obj1 "error" "GEMINI_API_KEY not configured"))
  else
    let prompt := get body "prompt" in
    if negb (truthy prompt) || negb (String.eqb (typeof prompt) "string") then
      res_writeHead 400 json_headers ;;
      res_end (Some (stringify_obj1 "error" "Invalid prompt"))
    else
      res_writeHead 200 sse_headers ;;
      try_catch
        (result <- await (GenerateContentStream apiKey gemini_model (str_of prompt))
                         (generateContentStream apiKey gemini_model (str_of prompt)) ;;
         for_await result relay_chunk ;;
         res_write done_event_name ;;
         res_write done_event_data ;;
         res_end None)
        (fun error =>
           console_error "Gemini stream error:" error ;;
           try_finally (res_write error_event) (res_end None)).

End Handlers.

(** ** Reading a run *)

Definition run (h : M unit) (w : world) : world := snd (h w).

(** The calls a handler adds to the trace of the world it starts in. *)
Definition effects_of (h : M unit) (w : world) : list effect :=
  skipn (List.length (trace w)) (trace (run h w)).

Definition is_response (e : effect) : bool :=
  match e with
  | ResJson _ _ | ResWriteHead _ _ | ResWrite _ | ResEnd _ => true
  | _ => false
  end.

(** What the handler puts on the wire, in order. *)
Definition wire (es : list effect) : list effect := filter is_response es.

(** The events handed to [io.emit]. *)
Definition published (es : list effect) : list (string * value) :=
  flat_map (fun e => match e with IoEmit n p => [(n, p)] | _ => [] end) es.

(** The HMAC computations, as (key, payload). *)
Definition hmac_calls (es : list effect) : list (string * string) :=
  flat_map (fun e => match e with CreateHmac _ k p => [(k, p)] | _ => [] end) es.

(** The options of the upstream order-creation calls. *)
Definition order_calls (es : list effect) : list value :=
  flat_map (fun e => match e with OrdersCreate o => [o] | _ => [] end) es.

(** The status codes sent. *)
Definition status_codes (es : list effect) : list Z :=
  flat_map (fun e => match e with
                     | ResJson c _ | ResWriteHead c _ => [c]
                     | _ => []
                     end) es.

(** The chunks passed to [res.write]. *)
Definition written (es : list effect) : list string :=
  flat_map (fun e => match e with ResWrite c => [c] | _ => [] end) es.

(** The number of pulls on the stream iterator. *)
Definition pulls (es : list effect) : nat :=
  List.length (filter (fun e => match e with StreamNext => true | _ => false end) es).

(** The payload of a [payment:verified] event. *)
Definition verified_event (order_id payment_id : value) : string * value :=
  ("payment:verified",
   Obj [("razorpay_order_id", order_id); ("razorpay_payment_id", payment_id)]).

(** ** The relay, in terms of the fragments of the upstream *)

(** How the upstream iterator ends: it is exhausted, or a pull fails. *)
Inductive ending :=
| Exhausted
| Failed (e : exn).

Definition end_of (x : ending) : stream :=
  match x with
  | Exhausted => SDone
  | Failed e => SRaise e
  end.

(** The stream that yields the fragments [frags] and then ends with [x]. *)
Definition stream_of (frags : list string) (x : ending) : stream :=
  fold_right SChunk (end_of x) frags.

(** One data event per non-empty fragment, in the order of the fragments. *)
Definition data_events (frags : list string) : list effect :=
  map (fun t => ResWrite (data_event t)) (filter nonempty frags).

(** The calls of the [for await] loop over a stream. *)
Fixpoint relay_trace (s : stream) : list effect :=
  match s with
  | SDone | SRaise _ => [StreamNext]
  | SChunk text rest =>
      StreamNext :: (if nonempty text then [ResWrite (data_event text)] else [])
        ++ relay_trace rest
  end.

Fixpoint stream_result (s : stream) : outcome unit :=
  match s with
  | SDone => Ret tt
  | SRaise e => Throw e
  | SChunk _ rest => stream_result rest
  end.

Fixpoint stream_length (s : stream) : nat :=
  match s with
  | SDone | SRaise _ => 0
  | SChunk _ rest => S (stream_length rest)
  end.

(** The calls that follow the loop: the done event and the close, or the
    log line, the error event and the close. *)
Definition closing (r : outcome unit) : list effect :=
  match r with
  | Ret _ => [ResWrite done_event_name; ResWrite done_event_data; ResEnd None]
  | Throw e =>
      [ConsoleError "Gemini stream error:" e; ResWrite error_event; ResEnd None]
  end.

(** All the calls of a streaming session that got past its two checks and
    whose upstream call returned the stream [s]. *)
Definition session_trace (apiKey prompt : string) (s : stream) : list effect :=
  [ResWriteHead 200 sse_headers; GenerateContentStream apiKey gemini_model prompt]
  ++ relay_trace s ++ closing (stream_result s).

(** The response calls among [es] that reach a client who hangs up during
    pull number [k + 1], when [n] pulls were made before [es]. *)
Fixpoint deliver (hangup : option nat) (n : nat) (es : list effect) : list effect :=
  match es with
  | [] => []
  | StreamNext :: r => deliver hangup (S n) r
  | e :: r =>
      if is_response e then
        if match hangup with None => true | Some k => Nat.leb n k end
        then e :: deliver hangup n r
        else deliver hangup n r
      else deliver hangup n r
  end.




(** ** Amounts *)

(** Zero or negative numbers. *)
Definition zero_or_negative (x : number) : bool :=
  match x with
  | S754_zero _ => true
  | S754_finite s _ _ | S754_infinity s => s
  | S754_nan => false
  end.

(** [r] is the integer nearest to [n * 2^e], the upper one on a tie; stated
    on integers after scaling by the denominator. *)
Definition nearest_integer (r n e : Z) : Prop :=
  let d := 2 ^ Z.max 0 (- e) in
  let u := 2 ^ Z.max 0 e in
  (2 * r - 1) * d <= 2 * n * u < (2 * r + 1) * d.

(** Positive numbers. *)
Definition positive_number (x : number) : bool :=
  match x with
  | S754_finite s _ _ | S754_infinity s => negb s
  | _ => false
  end.

(** The binary64 number nearest to 19.99 (what [JSON.parse] yields for the
    literal 19.99): 5626684784446013 * 2^-48. *)
Definition n19_99 : number := S754_finite false 5626684784446013 (-48).

(** ** Concrete surroundings used in the examples *)

Definition env_set : string -> option string :=
  fun k =>
    if String.eqb k "RAZORPAY_KEY_ID" then Some "rzp_test_1"
    else if String.eqb k "RAZORPAY_KEY_SECRET" then Some "s3cret"
    else if String.eqb k "GEMINI_API_KEY" then Some "g-key"
    else None.

(** A stand-in for the keyed hash in the examples. *)
Definition toy_hmac (key payload : string) : string := "mac(" ++ key ++ "," ++ payload ++ ")".

Definition toy_orders_create (options : value) : exn + value :=
  inr (Obj [("id", Str "order_1"); ("amount", get options "amount")]).

Definition toy_generate (apiKey model prompt : string) : exn + string := inr "Hello".

Definition no_string_to_number (s : string) : number := NaN.
Definition no_object_to_number (v : value) : exn + number := inr NaN.
Definition toy_number_to_string (n : number) : string := "0".
Definition toy_object_to_string (v : value) : exn + string := inr "[object Object]".

Definition verify_body (order_id payment_id signature : string) : value :=
  Obj [("razorpay_order_id", Str order_id);
       ("razorpay_payment_id", Str payment_id);
       ("razorpay_signature", Str signature)].

Definition prompt_body (prompt : string) : value := Obj [("prompt", Str prompt)].

Definition amount_body (x : number) : value := Obj [("amount", Num x)].

(** The options of the upstream call made for [body] by a configured
    server at time 1700000000000. *)
Definition options_sent (body : value) : value :=
  hd Undefined
     (order_calls
        (effects_of
           (create_order env_set toy_orders_create no_string_to_number
                         no_object_to_number body)
           (start 1700000000000 None))).

Definition hel_lo_fails (apiKey model prompt : string) : exn + stream :=
  inr (stream_of ["Hel"; "lo"] (Failed "upstream reset")).

Definition four_fragments (apiKey model prompt : string) : exn + stream :=
  inr (stream_of ["a"; "b"; "c"; "d"] Exhausted).

Definition with_empty_fragment (apiKey model prompt : string) : exn + stream :=
  inr (stream_of ["Hel"; ""; "lo"] Exhausted).

(** ** The rest of the file *)

(** Line 22: [Number(process.env.PORT) || 3000]. *)
Definition port (process_env : string -> option string)
    (StringToNumber : string -> number) : number :=
  let n := match process_env "PORT" with
           | None => NaN
           | Some s => StringToNumber s
           end in
  if truthy (Num n) then n else of_Z 3000.

Definition CR : ascii := ascii_of_N 13.

(** Whether the character [c] occurs in [s]. *)
Fixpoint has_char (c : ascii) (s : string) : bool :=
  match s with
  | EmptyString => false
  | String a r => Ascii.eqb a c || has_char c r
  end.

(** The calls made before pull number [k + 1]. *)
Fixpoint before_pull (k : nat) (es : list effect) : list effect :=
  match es with
  | [] => []
  | StreamNext :: r =>
      match k with
      | O => []
      | S k' => StreamNext :: before_pull k' r
      end
  | e :: r => e :: before_pull k r
  end.

(** A number that is not NaN and carries the sign [s]. *)
Definition has_sign (s : bool) (x : number) : Prop :=
  match x with
  | S754_zero s' | S754_infinity s' | S754_finite s' _ _ => s' = s
  | S754_nan => False
  end.

(** Reading the escapes of [quote_chars] back, as a JSON reader does. *)
Definition hex_value (c : ascii) : N :=
  let n := N_of_ascii c in
  if (n <? 58)%N then (n - 48)%N else (n - 87)%N.

Definition unescape (d : ascii) : ascii :=
  let n := N_of_ascii d in
  if (n =? 98)%N then ascii_of_N 8
  else if (n =? 102)%N then ascii_of_N 12
  else if (n =? 110)%N then ascii_of_N 10
  else if (n =? 114)%N then ascii_of_N 13
  else if (n =? 116)%N then ascii_of_N 9
  else d.

Fixpoint unquote_chars (s : string) : string :=
  match s with
  | EmptyString => EmptyString
  | String c r =>
      if (N_of_ascii c =? 92)%N then
        match r with
        | EmptyString => EmptyString
        | String d r' =>
            if (N_of_ascii d =? 117)%N then
              match r' with
              | String _ (String _ (String h (String l r''))) =>
                  String (ascii_of_N (16 * hex_value h + hex_value l))
                         (unquote_chars r'')
              | _ => EmptyString
              end
            else String (unescape d) (unquote_chars r')
        end
      else String c (unquote_chars r)
  end.

(** Further surroundings for the examples. *)

Definition env_google_only : string -> option string :=
  fun k =>
    if String.eqb k "GEMINI_API_KEY" then Some ""
    else if String.eqb k "GOOGLE_API_KEY" then Some "google-key"
    else if String.eqb k "RAZORPAY_KEY_ID" then Some "rzp_test_1"
    else if String.eqb k "RAZORPAY_KEY_SECRET" then Some "s3cret"
    else None.

Definition env_port_zero : string -> option string :=
  fun k => if String.eqb k "PORT" then Some "0" else None.

Definition zero_string_to_number (s : string) : number := pzero.

Definition toy_orders_fail (options : value) : exn + value :=
  inl "BAD_REQUEST_ERROR".

Definition toy_generate_fail (apiKey model prompt : string) : exn + string :=
  inl "fetch failed".

Definition stream_call_fails (apiKey model prompt : string) : exn + stream :=
  inl "503 Service Unavailable".

Definition throwing_object_to_string (v : value) : exn + string :=
  inl "TypeError: Cannot convert object to primitive value".

(** 0.001 as a binary64 number. *)
Definition n0_001 : number := div (of_Z 1) (of_Z 1000).

(** ** Start-up, bytes, and further surroundings *)

(** Line 34, when the module is loaded: [new Razorpay({ key_id, key_secret })].
    The constructor belongs to the razorpay package; [Razorpay_new] is what
    it does with the two keys.  When it throws, the module does not load and
    no request is ever served. *)
Definition startup (Razorpay_new : string -> string -> exn + unit)
    (process_env : string -> option string) : exn + unit :=
  Razorpay_new (razorpayKeyId process_env) (razorpayKeySecret process_env).

(** The constructor as far as the handlers are concerned: it refuses an
    empty key id. *)
Definition razorpay_refuses_empty_id (key_id key_secret : string) : exn + unit :=
  if nonempty key_id then inr tt else inl "`key_id` or `oauthToken` is mandatory".

(** The character codes of a string. *)
Definition bytes (s : string) : list N :=
  map N_of_ascii (list_ascii_of_string s).

(** The key id is set, the secret is not. *)
Definition env_id_only : string -> option string :=
  fun k => if String.eqb k "RAZORPAY_KEY_ID" then Some "rzp_test_1" else None.

(** The payment keys are set, no generation key is. *)
Definition env_no_gemini : string -> option string :=
  fun k =>
    if String.eqb k "RAZORPAY_KEY_ID" then Some "rzp_test_1"
    else if String.eqb k "RAZORPAY_KEY_SECRET" then Some "s3cret"
    else None.

(** 0.015 as a binary64 number. *)
Definition n0_015 : number := div (of_Z 15) (of_Z 1000).

(** A fragment with a quote and a line feed in it. *)
Definition quoted_fragment : string :=
  String dquote ("a" ++ String dquote (String LF "b")).

Definition awkward_fragments (apiKey model prompt : string) : exn + stream :=
  inr (stream_of ["Hel"; ""; quoted_fragment] Exhausted).

End Server.

(** * Properties *)

Import JS Server.
Local Open Scope js_scope.

(** ** General facts *)

Lemma effects_of_app (h : M unit) (w : world) (es : list effect) :
  trace (run h w) = (trace w ++ es)%list -> effects_of h w = es.
Proof.
  unfold effects_of. intros ->.
  rewrite skipn_app, skipn_all, Nat.sub_diag. reflexivity.
Qed.

Lemma strict_eq_str_true (a : string) (v : value) :
  strict_eq_str a v = true <-> v = Str a.
Proof.
  destruct v; simpl; try (split; [discriminate | intros H; discriminate H]).
  rewrite String.eqb_eq. split.
  - intros ->. reflexivity.
  - intros H. injection H as ->. reflexivity.
Qed.

Lemma nonempty_false (s : string) : nonempty s = false <-> s = "".
Proof. destruct s; simpl; split; intros H; try reflexivity; discriminate H. Qed.

Lemma truthy_get_present (o : value) (k : string) :
  truthy (get o k) = true -> present o = true.
Proof. destruct o; simpl; intros H; try reflexivity; discriminate H. Qed.

Lemma absent_get (o : value) (k : string) :
  present o = false -> get o k = Undefined.
Proof. destruct o; simpl; intros H; try reflexivity; discriminate H. Qed.

Lemma bind_ret {A B : Type} (a : A) (k : A -> M B) : bind (ret a) k = k a.
Proof. reflexivity. Qed.

(** Unfolding of the monad and of the primitive calls. *)
Ltac run_handler :=
  unfold run, try_catch, try_finally, bind, ret, throw, lift, await, call,
    respond, res_json, res_status_json, res_writeHead, res_write, res_end,
    io_emit, console_error, createHmac_digest, Date_now, Number, ToString;
  simpl.

(** ** Payment verification *)

Section Verification.

Variable process_env : string -> option string.
Variable hmac_sha256_hex : string -> string -> string.
Variable NumberToString : number -> string.
Variable ObjectToString : value -> exn + string.

Local Notation verify :=
  (verify_payment process_env hmac_sha256_hex NumberToString ObjectToString).
Local Notation secret := (razorpayKeySecret process_env).
Local Notation to_str := (to_string NumberToString ObjectToString).

(** The calls of a verification whose three fields are present and whose
    identifiers convert to the strings [o] and [p]. *)
Lemma verify_present_trace (body : value) (w : world) (o p : string) :
  truthy (get body "razorpay_order_id") = true ->
  truthy (get body "razorpay_payment_id") = true ->
  truthy (get body "razorpay_signature") = true ->
  to_str (get body "razorpay_order_id") = inr o ->
  to_str (get body "razorpay_payment_id") = inr p ->
  effects_of (verify body) w =
    (CreateHmac "sha256" secret (o ++ "|" ++ p)
     :: (if strict_eq_str (hmac_sha256_hex secret (o ++ "|" ++ p))
                          (get body "razorpay_signature")
         then [IoEmit "payment:verified"
                 (Obj [("razorpay_order_id", get body "razorpay_order_id");
                       ("razorpay_payment_id", get body "razorpay_payment_id")])]
         else [])
     ++ [ResJson 200
           (Obj [("success",
                  Bool (strict_eq_str (hmac_sha256_hex secret (o ++ "|" ++ p))
                                      (get body "razorpay_signature")))])])%list.
Proof.
  intros Ho Hp Hs Eo Ep. apply effects_of_app.
  unfold verify_payment, destructure. rewrite (truthy_get_present _ _ Ho).
  run_handler. rewrite Ho, Hp, Hs. simpl.
  rewrite Eo, Ep. simpl.
  destruct (strict_eq_str _ _); simpl; rewrite <- ?app_assoc; reflexivity.
Qed.

(** The calls of a verification with a body and a falsy field. *)
Lemma verify_missing_trace (body : value) (w : world) :
  present body = true ->
  truthy (get body "razorpay_order_id")
  && truthy (get body "razorpay_payment_id")
  && truthy (get body "razorpay_signature") = false ->
  effects_of (verify body) w =
    [ResJson 400 (Obj [("success", Bool false); ("error", Str "Missing fields")])].
Proof.
  intros Hb H. apply effects_of_app.
  unfold verify_payment, destructure. rewrite Hb. run_handler.
  replace (negb (truthy (get body "razorpay_order_id"))
           || negb (truthy (get body "razorpay_payment_id"))
           || negb (truthy (get body "razorpay_signature"))) with true.
  - reflexivity.
  - rewrite <- !negb_andb, H. reflexivity.
Qed.

(** The calls of a verification without a body: the destructuring of line
    76 throws. *)
Lemma verify_absent_trace (body : value) (w : world) :
  present body = false ->
  exists e,
    effects_of (verify body) w =
      [ConsoleError "Error verifying payment:" e;
       ResJson 500 (Obj [("success", Bool false); ("error", Str "Verification failed")])].
Proof.
  intros Hb. eexists. apply effects_of_app.
  unfold verify_payment, destructure. rewrite Hb. run_handler.
  rewrite <- app_assoc. reflexivity.
Qed.

(** The calls of a verification whose identifiers do not convert to a
    string. *)
Lemma verify_throw_trace (body : value) (w : world) :
  truthy (get body "razorpay_order_id")
  && truthy (get body "razorpay_payment_id")
  && truthy (get body "razorpay_signature") = true ->
  (forall o p, to_str (get body "razorpay_order_id") = inr o ->
               to_str (get body "razorpay_payment_id") = inr p -> False) ->
  exists e,
    effects_of (verify body) w =
      [ConsoleError "Error verifying payment:" e;
       ResJson 500 (Obj [("success", Bool false); ("error", Str "Verification failed")])].
Proof.
  intros H Hno.
  apply andb_prop in H as [H Hs]. apply andb_prop in H as [Ho Hp].
  destruct (to_str (get body "razorpay_order_id")) as [e|o] eqn:Eo.
  - exists e. apply effects_of_app.
    unfold verify_payment, destructure. rewrite (truthy_get_present _ _ Ho).
    run_handler. rewrite Ho, Hp, Hs. simpl. rewrite Eo. simpl.
    rewrite <- app_assoc. reflexivity.
  - destruct (to_str (get body "razorpay_payment_id")) as [e|p] eqn:Ep.
    + exists e. apply effects_of_app.
      unfold verify_payment, destructure. rewrite (truthy_get_present _ _ Ho).
      run_handler. rewrite Ho, Hp, Hs. simpl. rewrite Eo, Ep. simpl.
      rewrite <- app_assoc. reflexivity.
    + exfalso. exact (Hno o p eq_refl eq_refl).
Qed.

(** C1. For a verification request whose three fields are present (the
    identifiers reading as the strings [o] and [p]), the [payment:verified]
    event is published if and only if the supplied signature is the hex
    HMAC-SHA256 of [o ++ "|" ++ p] under the configured secret, and then it
    is published exactly once and the call answers [success: true];
    otherwise nothing is published.  For every request whatsoever, a call
    that answers [success: false] has published nothing. *)
Theorem verified_event_iff_signature_matches (body : value) (w : world) :
  let es := effects_of (verify body) w in
  let order_id := get body "razorpay_order_id" in
  let payment_id := get body "razorpay_payment_id" in
  let signature := get body "razorpay_signature" in
  (forall code b,
      In (ResJson code b) es -> get b "success" = Bool false -> published es = [])
  /\ (forall o p,
        truthy order_id = true ->
        truthy payment_id = true ->
        truthy signature = true ->
        to_str order_id = inr o ->
        to_str payment_id = inr p ->
        let expected := hmac_sha256_hex secret (o ++ "|" ++ p) in
        (published es = [verified_event order_id payment_id] <-> signature = Str expected)
        /\ (signature = Str expected ->
            wire es = [ResJson 200 (Obj [("success", Bool true)])])
        /\ (signature <> Str expected ->
            published es = []
            /\ wire es = [ResJson 200 (Obj [("success", Bool false)])])).
Proof.
  intros es order_id payment_id signature. split.
  - intros code b Hin Hb.
    destruct (truthy order_id && truthy payment_id && truthy signature) eqn:Hall.
    + destruct (to_str order_id) as [e1|o] eqn:Eo;
        [ | destruct (to_str payment_id) as [e2|p] eqn:Ep ].
      * destruct (verify_throw_trace body w Hall) as [e He].
        { intros o p Ho. fold order_id in Ho. congruence. }
        subst es. rewrite He. reflexivity.
      * destruct (verify_throw_trace body w Hall) as [e He].
        { intros o' p Ho Hp. fold payment_id in Hp. congruence. }
        subst es. rewrite He. reflexivity.
      * pose proof Hall as H3.
        apply andb_prop in H3 as [H3 Hs]. apply andb_prop in H3 as [Ho Hp].
        pose proof (verify_present_trace body w o p Ho Hp Hs Eo Ep) as He.
        fold es signature in He. rewrite He in Hin |- *.
        destruct (strict_eq_str _ signature); simpl in *.
        -- destruct Hin as [Hin | [Hin | [Hin | []]]]; try discriminate Hin.
           injection Hin as _ <-. discriminate Hb.
        -- reflexivity.
    + destruct (present body) eqn:Hbody.
      * subst es. rewrite (verify_missing_trace body w Hbody Hall). reflexivity.
      * destruct (verify_absent_trace body w Hbody) as [e He].
        subst es. rewrite He. reflexivity.
  - intros o p Ho Hp Hs Eo Ep expected.
    pose proof (verify_present_trace body w o p Ho Hp Hs Eo Ep) as He.
    fold es signature expected in He.
    pose proof (strict_eq_str_true expected signature) as Hiff.
    rewrite He. destruct (strict_eq_str expected signature); simpl.
    + assert (Hsig : signature = Str expected) by (apply Hiff; reflexivity).
      split; [ | split ].
      * split; intros _; [ exact Hsig | reflexivity ].
      * intros _. reflexivity.
      * intros Hne. contradiction.
    + assert (Hsig : signature <> Str expected).
      { intros Heq. apply Hiff in Heq. discriminate Heq. }
      split; [ | split ].
      * split; [ intros Heq; discriminate Heq | intros Heq; contradiction ].
      * intros Heq. contradiction.
      * intros _. split; reflexivity.
Qed.

(** C7.  A verification request in which one of the three fields is
    missing or empty never reaches the HMAC: nothing is computed under the
    secret and nothing is published.  When the request has a body it is
    answered with 400; when it has none (then all three fields are missing)
    the destructuring of line 76 throws and the catch answers 500. *)
Theorem missing_field_rejected_before_hmac (body : value) (w : world) :
  truthy (get body "razorpay_order_id")
  && truthy (get body "razorpay_payment_id")
  && truthy (get body "razorpay_signature") = false ->
  let es := effects_of (verify body) w in
  (present body = true ->
   es = [ResJson 400 (Obj [("success", Bool false); ("error", Str "Missing fields")])])
  /\ (present body = false ->
      exists e,
        es = [ConsoleError "Error verifying payment:" e;
              ResJson 500
                (Obj [("success", Bool false); ("error", Str "Verification failed")])])
  /\ hmac_calls es = []
  /\ published es = [].
Proof.
  intros H es. subst es. destruct (present body) eqn:Hbody.
  - rewrite (verify_missing_trace body w Hbody H).
    split; [ reflexivity | ]. split; [ intros Hc; discriminate Hc | ].
    split; reflexivity.
  - destruct (verify_absent_trace body w Hbody) as [e He]. rewrite He.
    split; [ intros Hc; discriminate Hc | ].
    split; [ intros _; exists e; reflexivity | ]. split; reflexivity.
Qed.

End Verification.

(** ** Rounding *)

Lemma round_Z_nearest (s : bool) (m : positive) (e : Z) :
  nearest_integer (round_Z s m e) (cond_Zopp s (Zpos m)) e.
Proof.
  unfold nearest_integer, round_Z.
  set (n := cond_Zopp s (Zpos m)).
  destruct (Z.leb_spec 0 e) as [He | He].
  - rewrite (Z.max_l 0 (- e)) by lia. rewrite (Z.max_r 0 e) by lia.
    change (2 ^ 0) with 1. lia.
  - rewrite (Z.max_r 0 (- e)) by lia. rewrite (Z.max_l 0 e) by lia.
    change (2 ^ 0) with 1.
    replace (- e + 1) with (Z.succ (- e)) by lia.
    rewrite Z.pow_succ_r by lia.
    assert (Hd : 0 < 2 ^ (- e)) by (apply Z.pow_pos_nonneg; lia).
    set (d := 2 ^ (- e)) in *.
    pose proof (Z.div_mod (2 * n + d) (2 * d) ltac:(lia)) as Hdm.
    pose proof (Z.mod_pos_bound (2 * n + d) (2 * d) ltac:(lia)) as Hb.
    nia.
Qed.

(** [n19_99] is the correctly rounded quotient 1999 / 100. *)
Lemma n19_99_nearest : n19_99 = div (of_Z 1999) (of_Z 100).
Proof. vm_compute. reflexivity. Qed.

(** The test of line 56 rejects exactly zero, the negative numbers and NaN. *)
Lemma amount_test (x : number) :
  negb (truthy (Num x)) || leb x pzero
  = zero_or_negative x || match x with S754_nan => true | _ => false end.
Proof. destruct x as [ [|] | [|] | | [|] m e ]; reflexivity. Qed.

Lemma positive_number_accepted (x : number) :
  positive_number x = true -> negb (truthy (Num x)) || leb x pzero = false.
Proof. destruct x as [ [|] | [|] | | [|] m e ]; simpl; intros H; try discriminate H; reflexivity. Qed.

Lemma zero_or_negative_rejected (x : number) :
  zero_or_negative x = true -> negb (truthy (Num x)) || leb x pzero = true.
Proof. intros H. rewrite amount_test, H. reflexivity. Qed.

(** ** Order creation *)

Section Orders.

Variable process_env : string -> option string.
Variable orders_create : value -> exn + value.
Variable StringToNumber : string -> number.
Variable ObjectToNumber : value -> exn + number.

Local Notation create :=
  (create_order process_env orders_create StringToNumber ObjectToNumber).
Local Notation to_num := (to_number StringToNumber ObjectToNumber).
Local Notation key_id := (razorpayKeyId process_env).
Local Notation key_secret := (razorpayKeySecret process_env).

(** The options the handler builds for the amount [x] at time [t]. *)
Local Notation options_for x t :=
  (Obj [("amount", Num (Math_round (mul x (of_Z 100))));
        ("currency", Str "INR");
        ("receipt", Str ("rcpt_" ++ dec t))]).

Lemma create_unconfigured_trace (body : value) (w : world) :
  nonempty key_id && nonempty key_secret = false ->
  effects_of (create body) w =
    [ResJson 500
       (Obj [("success", Bool false); ("error", Str "Razorpay keys not configured")])].
Proof.
  intros H. apply effects_of_app. unfold create_order.
  rewrite <- negb_andb, H. reflexivity.
Qed.

(** Without a body the amount reads as NaN, were it read at all. *)
Lemma absent_to_num (body : value) :
  present body = false -> to_num (get body "amount") = inr NaN.
Proof. intros Hb. rewrite (absent_get body "amount" Hb). reflexivity. Qed.

Lemma accepted_has_body (body : value) (x : number) :
  to_num (get body "amount") = inr x ->
  negb (truthy (Num x)) || leb x pzero = false ->
  present body = true.
Proof.
  intros Hx Hacc. destruct (present body) eqn:Hb; [ reflexivity | ].
  rewrite (absent_to_num body Hb) in Hx. injection Hx as <-. discriminate Hacc.
Qed.

Lemma create_rejected_trace (body : value) (w : world) (x : number) :
  present body = true ->
  nonempty key_id && nonempty key_secret = true ->
  to_num (get body "amount") = inr x ->
  negb (truthy (Num x)) || leb x pzero = true ->
  effects_of (create body) w =
    [ResJson 400 (Obj [("success", Bool false); ("error", Str "Invalid amount")])].
Proof.
  intros Hb H Hx Hrej. apply effects_of_app. unfold create_order, read.
  rewrite <- negb_andb, H, Hb. run_handler. rewrite Hx. simpl.
  rewrite Hrej. reflexivity.
Qed.

(** Without a body, line 55 throws. *)
Lemma create_absent_trace (body : value) (w : world) :
  present body = false ->
  nonempty key_id && nonempty key_secret = true ->
  exists e,
    effects_of (create body) w =
      [ConsoleError "Error creating order:" e;
       ResJson 500 (Obj [("success", Bool false); ("error", Str "Failed to create order")])].
Proof.
  intros Hb H. eexists. apply effects_of_app. unfold create_order, read.
  rewrite <- negb_andb, H, Hb. run_handler. rewrite <- app_assoc. reflexivity.
Qed.

Lemma create_accepted_trace (body : value) (w : world) (x : number) :
  nonempty key_id && nonempty key_secret = true ->
  to_num (get body "amount") = inr x ->
  negb (truthy (Num x)) || leb x pzero = false ->
  effects_of (create body) w =
    OrdersCreate (options_for x (now w))
    :: match orders_create (options_for x (now w)) with
       | inr order =>
           [ResJson 200
              (Obj [("success", Bool true); ("order", order); ("key_id", Str key_id)])]
       | inl e =>
           [ConsoleError "Error creating order:" e;
            ResJson 500
              (Obj [("success", Bool false); ("error", Str "Failed to create order")])]
       end.
Proof.
  intros H Hx Hacc. apply effects_of_app. unfold create_order, read.
  rewrite <- negb_andb, H, (accepted_has_body body x Hx Hacc).
  run_handler. rewrite Hx. simpl.
  rewrite Hacc. simpl.
  destruct (orders_create _); simpl; rewrite <- ?app_assoc; reflexivity.
Qed.

Lemma create_coercion_trace (body : value) (w : world) (e : exn) :
  nonempty key_id && nonempty key_secret = true ->
  to_num (get body "amount") = inl e ->
  effects_of (create body) w =
    [ConsoleError "Error creating order:" e;
     ResJson 500 (Obj [("success", Bool false); ("error", Str "Failed to create order")])].
Proof.
  intros H Hx. apply effects_of_app. unfold create_order, read.
  assert (Hb : present body = true).
  { destruct (present body) eqn:Hb; [ reflexivity | ].
    rewrite (absent_to_num body Hb) in Hx. discriminate Hx. }
  rewrite <- negb_andb, H, Hb. run_handler. rewrite Hx. simpl.
  rewrite <- app_assoc. reflexivity.
Qed.

(** At most one upstream call, and always with the options of the handler. *)
Lemma create_order_calls (body : value) (w : world) :
  order_calls (effects_of (create body) w) = []
  \/ exists x, order_calls (effects_of (create body) w) = [options_for x (now w)].
Proof.
  destruct (nonempty key_id && nonempty key_secret) eqn:H.
  - destruct (to_num (get body "amount")) as [e|x] eqn:Hx.
    + left. rewrite (create_coercion_trace body w e H Hx). reflexivity.
    + destruct (negb (truthy (Num x)) || leb x pzero) eqn:Hc.
      * left. destruct (present body) eqn:Hb.
        -- rewrite (create_rejected_trace body w x Hb H Hx Hc). reflexivity.
        -- destruct (create_absent_trace body w Hb H) as [e He].
           rewrite He. reflexivity.
      * right. exists x. rewrite (create_accepted_trace body w x H Hx Hc).
        destruct (orders_create _); reflexivity.
  - left. rewrite (create_unconfigured_trace body w H). reflexivity.
Qed.

(** C10. Whatever the request body, an upstream order-creation call carries
    the currency INR and the receipt [rcpt_] followed by the time of the
    call; nothing of the body but the amount reaches the options. *)
Theorem order_options_fixed_currency_and_receipt
    (body : value) (w : world) (options : value) :
  In options (order_calls (effects_of (create body) w)) ->
  get options "currency" = Str "INR"
  /\ get options "receipt" = Str ("rcpt_" ++ dec (now w))
  /\ order_calls (effects_of (create body) w) = [options]
  /\ exists x, options = options_for x (now w).
Proof.
  intros Hin.
  destruct (create_order_calls body w) as [H0 | [x Hx]].
  - rewrite H0 in Hin. destruct Hin.
  - rewrite Hx in Hin |- *. destruct Hin as [<- | []].
    repeat split. exists x. reflexivity.
Qed.

(** C6, as the code has it.  With the provider credentials configured and
    the amount reading as the number [x]: a zero or negative [x] is answered
    with 400 and no upstream call is made; a positive [x] leads to exactly
    one upstream call, whose amount is [Math.round] of the binary64 product
    [x * 100], and that is the integer nearest to the product; 19.99 gives
    1999. *)
Theorem amount_conversion_when_configured (body : value) (w : world) (x : number) :
  nonempty key_id = true ->
  nonempty key_secret = true ->
  to_num (get body "amount") = inr x ->
  let es := effects_of (create body) w in
  (zero_or_negative x = true ->
     es = [ResJson 400 (Obj [("success", Bool false); ("error", Str "Invalid amount")])]
     /\ order_calls es = [])
  /\ (positive_number x = true ->
      exists options,
        order_calls es = [options]
        /\ get options "amount" = Num (Math_round (mul x (of_Z 100))))
  /\ (forall s m e,
        mul x (of_Z 100) = S754_finite s m e ->
        Math_round (mul x (of_Z 100))
        = (if round_Z s m e =? 0 then S754_zero s else of_Z (round_Z s m e))
        /\ nearest_integer (round_Z s m e) (cond_Zopp s (Zpos m)) e)
  /\ Math_round (mul n19_99 (of_Z 100)) = of_Z 1999.
Proof.
  intros Hk Hs Hx es.
  assert (H : nonempty key_id && nonempty key_secret = true) by (rewrite Hk, Hs; reflexivity).
  split; [ | split; [ | split ] ].
  - intros Hz. subst es.
    assert (Hb : present body = true).
    { destruct (present body) eqn:Hb; [ reflexivity | ].
      rewrite (absent_to_num body Hb) in Hx.
      injection Hx as <-. discriminate Hz. }
    rewrite (create_rejected_trace body w x Hb H Hx (zero_or_negative_rejected x Hz)).
    split; reflexivity.
  - intros Hp. subst es.
    rewrite (create_accepted_trace body w x H Hx (positive_number_accepted x Hp)).
    eexists. split.
    + destruct (orders_create _); reflexivity.
    + reflexivity.
  - intros s m e Hm. rewrite Hm. split.
    + reflexivity.
    + apply round_Z_nearest.
  - vm_compute. reflexivity.
Qed.

End Orders.

(** ** The relay loop *)

#[local] Arguments Nat.leb : simpl never.

Lemma deliver_app (hangup : option nat) (es1 es2 : list effect) :
  forall n,
    deliver hangup n (es1 ++ es2)
    = (deliver hangup n es1 ++ deliver hangup (n + pulls es1) es2)%list.
Proof.
  induction es1 as [ | e es1 IH]; intros n.
  - simpl. rewrite Nat.add_0_r. reflexivity.
  - destruct e; simpl;
      try (destruct (match hangup with None => true | Some k => Nat.leb n k end);
           simpl; rewrite IH; reflexivity);
      try (rewrite IH; reflexivity).
    rewrite IH. unfold pulls. simpl. rewrite Nat.add_succ_r. reflexivity.
Qed.


Lemma deliver_open (es : list effect) :
  forall n, deliver None n es = wire es.
Proof.
  induction es as [ | e es IH]; intros n; [reflexivity | ].
  destruct e; simpl; rewrite IH; reflexivity.
Qed.

(** The loop makes the calls of [relay_trace], ends as [stream_result] says,
    and has delivered what [deliver] keeps. *)
Lemma for_await_run (s : stream) :
  forall w,
    for_await s relay_chunk w
    = (stream_result s,
       mkWorld (trace w ++ relay_trace s) (now w)
               (pulled w + S (stream_length s)) (hangup_after w)
               (delivered w ++ deliver (hangup_after w) (pulled w) (relay_trace s))).
Proof.
  induction s as [ | e | text rest IH]; intros w.
  - simpl. unfold bind, next, ret. simpl.
    rewrite Nat.add_1_r, app_nil_r. reflexivity.
  - simpl. unfold bind, next, throw. simpl.
    rewrite Nat.add_1_r, app_nil_r. reflexivity.
  - simpl. unfold bind at 1. unfold next at 1. unfold bind at 1.
    unfold relay_chunk. destruct (nonempty text).
    + unfold res_write, respond, connected. simpl. rewrite IH. simpl.
      rewrite <- !app_assoc. simpl. rewrite !Nat.add_succ_r.
      destruct (hangup_after w) as [k | ]; [ destruct (Nat.leb (S (pulled w)) k) | ];
        simpl; rewrite <- ?app_assoc; reflexivity.
    + unfold ret. rewrite IH. simpl.
      rewrite <- !app_assoc. simpl. rewrite !Nat.add_succ_r. reflexivity.
Qed.

Lemma stream_result_of (frags : list string) (x : ending) :
  stream_result (stream_of frags x)
  = match x with Exhausted => Ret tt | Failed e => Throw e end.
Proof. induction frags as [ | t r IH]; [ destruct x; reflexivity | exact IH ]. Qed.


Lemma pulls_relay_trace (s : stream) : pulls (relay_trace s) = S (stream_length s).
Proof.
  induction s as [ | e | text rest IH]; try reflexivity.
  simpl. destruct (nonempty text); unfold pulls in *; simpl; rewrite IH; reflexivity.
Qed.

(** On the wire the loop leaves one data event per non-empty fragment, in
    the order of the fragments. *)
Lemma wire_relay_trace (frags : list string) (x : ending) :
  wire (relay_trace (stream_of frags x)) = data_events frags.
Proof.
  induction frags as [ | t r IH]; [ destruct x; reflexivity | ].
  unfold data_events, wire in *. simpl.
  destruct (nonempty t); simpl; rewrite IH; reflexivity.
Qed.

Lemma data_events_app (frags1 frags2 : list string) :
  data_events (frags1 ++ frags2) = (data_events frags1 ++ data_events frags2)%list.
Proof. unfold data_events. rewrite filter_app, map_app. reflexivity. Qed.

Lemma written_data_events (frags : list string) :
  written (data_events frags) = map data_event (filter nonempty frags).
Proof.
  unfold data_events. induction (filter nonempty frags) as [ | t r IH]; [reflexivity | ].
  simpl. rewrite IH. reflexivity.
Qed.




Lemma wire_app (es1 es2 : list effect) :
  wire (es1 ++ es2) = (wire es1 ++ wire es2)%list.
Proof. apply filter_app. Qed.

Lemma written_app (es1 es2 : list effect) :
  written (es1 ++ es2) = (written es1 ++ written es2)%list.
Proof. apply flat_map_app. Qed.

Lemma written_wire (es : list effect) : written (wire es) = written es.
Proof.
  unfold wire. induction es as [ | e es IH]; [reflexivity | ].
  destruct e; simpl; rewrite IH; reflexivity.
Qed.

Lemma in_wire (e : effect) (es : list effect) :
  In e es -> is_response e = true -> In e (wire es).
Proof. intros Hin He. apply filter_In. split; assumption. Qed.

Lemma data_event_not_done (t : string) : data_event t <> done_event_name.
Proof. unfold data_event, done_event_name. simpl. discriminate. Qed.


(** The wire of a whole session. *)
Lemma wire_session_trace (key p : string) (frags : list string) (x : ending) :
  wire (session_trace key p (stream_of frags x))
  = (ResWriteHead 200 sse_headers
     :: data_events frags
     ++ match x with
        | Exhausted => [ResWrite done_event_name; ResWrite done_event_data; ResEnd None]
        | Failed _ => [ResWrite error_event; ResEnd None]
        end)%list.
Proof.
  unfold session_trace. rewrite !wire_app, wire_relay_trace, stream_result_of.
  destruct x; reflexivity.
Qed.

(** ** The bytes of the events *)

Lemma append_assoc (a b c : string) : (a ++ b) ++ c = a ++ (b ++ c).
Proof. induction a as [ | x a IH]; [ reflexivity | simpl; rewrite IH; reflexivity ]. Qed.

Lemma append_length (a b : string) :
  String.length (a ++ b) = (String.length a + String.length b)%nat.
Proof. induction a as [ | x a IH]; [ reflexivity | simpl; rewrite IH; reflexivity ]. Qed.

Lemma append_cancel_l (p a b : string) : p ++ a = p ++ b -> a = b.
Proof.
  induction p as [ | x p IH]; simpl; intros H; [ exact H | ].
  apply IH. congruence.
Qed.

Lemma append_cancel_r (u : string) :
  forall a b, a ++ u = b ++ u -> a = b.
Proof.
  induction a as [ | x a IH]; intros [ | y b] H; simpl in H.
  - reflexivity.
  - apply (f_equal String.length) in H. simpl in H. rewrite append_length in H. lia.
  - apply (f_equal String.length) in H. simpl in H. rewrite append_length in H. lia.
  - assert (x = y) by congruence. assert (a ++ u = b ++ u) by congruence.
    subst y. f_equal. apply IH. assumption.
Qed.

Lemma unquote_quote_char (c : ascii) (r : string) :
  unquote_chars (quote_char c ++ r) = String c (unquote_chars r).
Proof.
  destruct c as [[|] [|] [|] [|] [|] [|] [|] [|]]; reflexivity.
Qed.

Lemma unquote_quote_chars (s r : string) :
  unquote_chars (quote_chars s ++ r) = s ++ unquote_chars r.
Proof.
  induction s as [ | c s IH]; [ reflexivity | ].
  simpl. rewrite append_assoc, unquote_quote_char, IH. reflexivity.
Qed.

Lemma bytes_app (a b : string) : bytes (a ++ b) = (bytes a ++ bytes b)%list.
Proof.
  unfold bytes. induction a as [ | x a IH]; [ reflexivity | ].
  simpl. rewrite IH. reflexivity.
Qed.

Lemma quote_char_printable (c : ascii) :
  forallb (N.leb 32) (bytes (quote_char c)) = true.
Proof.
  destruct c as [[|] [|] [|] [|] [|] [|] [|] [|]]; vm_compute; reflexivity.
Qed.

(** A quoted text holds no control character, so no line feed and no
    carriage return. *)
Lemma quote_chars_printable (t : string) :
  Forall (fun n => (32 <= n)%N) (bytes (quote_chars t)).
Proof.
  induction t as [ | c t IH]; [ constructor | ].
  simpl. rewrite bytes_app. apply Forall_app. split; [ | exact IH ].
  apply Forall_forall. intros n Hn.
  pose proof (quote_char_printable c) as Hc.
  rewrite forallb_forall in Hc. apply N.leb_le, Hc, Hn.
Qed.

Lemma bytes_cons (c : ascii) (s : string) :
  bytes (String c s) = N_of_ascii c :: bytes s.
Proof. reflexivity. Qed.

(** A data event is the field name, the opening of the object with its
    one key, the quoted text, the closing, and a blank line. *)
Lemma data_event_bytes (t : string) :
  bytes (data_event t)
  = ([100; 97; 116; 97; 58; 32; 123; 34; 116; 101; 120; 116; 34; 58; 34] ++ bytes (quote_chars t) ++ [34; 125; 10; 10])%list%N.
Proof.
  unfold data_event, stringify_obj1, stringify_string.
  repeat (rewrite bytes_app || rewrite bytes_cons).
  simpl. rewrite <- !app_assoc. reflexivity.
Qed.

Lemma error_event_bytes :
  bytes error_event
  = [100; 97; 116; 97; 58; 32; 123; 34; 101; 114; 114; 111; 114; 34; 58; 34; 83; 116; 114; 101; 97; 109; 105; 110; 103; 32; 102; 97; 105; 108; 101; 100; 34; 125; 10; 10]%N.
Proof. vm_compute. reflexivity. Qed.

Lemma done_event_bytes :
  bytes done_event_name = [101; 118; 101; 110; 116; 58; 32; 100; 111; 110; 101; 10]%N
  /\ bytes done_event_data = [100; 97; 116; 97; 58; 32; 123; 125; 10; 10]%N.
Proof. split; vm_compute; reflexivity. Qed.

(** A data event is one [data:] line and a blank line. *)
Lemma data_event_one_line (t : string) :
  exists payload,
    bytes (data_event t) = ([100; 97; 116; 97; 58; 32] ++ payload ++ [10; 10])%list%N
    /\ Forall (fun n => (32 <= n)%N) payload.
Proof.
  exists ([123; 34; 116; 101; 120; 116; 34; 58; 34] ++ bytes (quote_chars t) ++ [34; 125])%list%N.
  split.
  - rewrite data_event_bytes. simpl. rewrite <- !app_assoc. reflexivity.
  - apply Forall_app. split; [ | apply Forall_app; split ].
    + repeat constructor; intros H; discriminate H.
    + apply quote_chars_printable.
    + repeat constructor; intros H; discriminate H.
Qed.

Lemma error_event_one_line :
  exists payload,
    bytes error_event = ([100; 97; 116; 97; 58; 32] ++ payload ++ [10; 10])%list%N
    /\ Forall (fun n => (32 <= n)%N) payload.
Proof.
  exists [123; 34; 101; 114; 114; 111; 114; 34; 58; 34; 83; 116; 114; 101; 97; 109; 105; 110; 103; 32; 102; 97; 105; 108; 101; 100; 34; 125]%N. split.
  - vm_compute. reflexivity.
  - repeat constructor; intros H; discriminate H.
Qed.

Lemma data_event_text_unique (t1 t2 : string) :
  data_event t1 = data_event t2 -> t1 = t2.
Proof.
  unfold data_event, stringify_obj1, stringify_string. intros H.
  apply append_cancel_l in H. apply append_cancel_r in H.
  apply append_cancel_l in H. apply append_cancel_l in H. apply append_cancel_l in H.
  apply append_cancel_r in H.
  assert (H' : String dquote "" ++ quote_chars t1 ++ String dquote ""
               = String dquote "" ++ quote_chars t2 ++ String dquote "") by exact H.
  apply append_cancel_l in H'.
  apply (f_equal unquote_chars) in H'.
  rewrite !unquote_quote_chars in H'.
  apply append_cancel_r in H'. exact H'.
Qed.

(** ** Text generation *)

Section Generation.

Variable process_env : string -> option string.
Variable generateContent : string -> string -> string -> exn + string.
Variable generateContentStream : string -> string -> string -> exn + stream.

Local Notation chat_once := (chat process_env generateContent).
Local Notation relay := (chat_stream process_env generateContentStream).
Local Notation apiKey := (gemini_apiKey process_env).

Lemma chat_unconfigured_trace (body : value) (w : world) :
  present body = true ->
  nonempty apiKey = false ->
  effects_of (chat_once body) w =
    [ResJson 500 (Obj [("error", Str "GEMINI_API_KEY not configured")])].
Proof.
  intros Hb H. apply effects_of_app. unfold chat, read. rewrite Hb. run_handler.
  rewrite H. reflexivity.
Qed.

(** Without a body, line 103 throws before the key is looked at. *)
Lemma chat_absent_trace (body : value) (w : world) :
  present body = false ->
  exists e,
    effects_of (chat_once body) w =
      [ConsoleError "Gemini chat error:" e;
       ResJson 500 (Obj [("error", Str "Failed to generate response")])].
Proof.
  intros Hb. eexists. apply effects_of_app. unfold chat, read. rewrite Hb.
  run_handler. rewrite <- app_assoc. reflexivity.
Qed.

Lemma relay_unconfigured_trace (body : value) (w : world) :
  nonempty apiKey = false ->
  effects_of (relay body) w =
    [ResWriteHead 500 json_headers;
     ResEnd (Some (stringify_obj1 "error" "GEMINI_API_KEY not configured"))].
Proof.
  intros H. apply effects_of_app. unfold chat_stream. rewrite H.
  run_handler. rewrite <- app_assoc. reflexivity.
Qed.

Lemma chat_invalid_prompt_trace (body : value) (w : world) :
  present body = true ->
  nonempty apiKey = true ->
  negb (truthy (get body "prompt"))
  || negb (String.eqb (typeof (get body "prompt")) "string") = true ->
  effects_of (chat_once body) w = [ResJson 400 (Obj [("error", Str "Invalid prompt")])].
Proof.
  intros Hb H Hp. apply effects_of_app. unfold chat, read. rewrite Hb. run_handler.
  rewrite H. simpl negb. cbv iota. rewrite Hp. reflexivity.
Qed.

Lemma relay_invalid_prompt_trace (body : value) (w : world) :
  nonempty apiKey = true ->
  negb (truthy (get body "prompt"))
  || negb (String.eqb (typeof (get body "prompt")) "string") = true ->
  effects_of (relay body) w =
    [ResWriteHead 400 json_headers;
     ResEnd (Some (stringify_obj1 "error" "Invalid prompt"))].
Proof.
  intros H Hp. apply effects_of_app. unfold chat_stream. rewrite H. simpl negb. cbv iota.
  rewrite Hp. run_handler. rewrite <- app_assoc. reflexivity.
Qed.

(** A session that passes both checks and gets the stream [s] from the
    upstream. *)
Lemma relay_session (body : value) (w : world) (p : string) (s : stream) :
  nonempty apiKey = true ->
  get body "prompt" = Str p ->
  nonempty p = true ->
  generateContentStream apiKey gemini_model p = inr s ->
  run (relay body) w
  = mkWorld (trace w ++ session_trace apiKey p s) (now w)
            (pulled w + S (stream_length s)) (hangup_after w)
            (delivered w
             ++ deliver (hangup_after w) (pulled w) (session_trace apiKey p s)).
Proof.
  intros Hk Hb Hp Hs. unfold chat_stream. rewrite Hk, Hb.
  unfold truthy. rewrite Hp. cbn [negb orb typeof str_of String.eqb Ascii.eqb Bool.eqb].
  unfold run, bind at 1. unfold res_writeHead at 1. unfold respond at 1.
  unfold try_catch, bind at 1. unfold await at 1. rewrite Hs.
  unfold bind at 1. rewrite for_await_run.
  unfold session_trace.
  change ([ResWriteHead 200 sse_headers; GenerateContentStream apiKey gemini_model p]
          ++ relay_trace s ++ closing (stream_result s))%list
    with (ResWriteHead 200 sse_headers
          :: GenerateContentStream apiKey gemini_model p
          :: (relay_trace s ++ closing (stream_result s)))%list.
  cbn [deliver is_response]. rewrite deliver_app, pulls_relay_trace.
  unfold connected. cbn [trace now pulled hangup_after delivered].
  destruct (stream_result s) as [ [] | e ];
    run_handler; unfold connected; cbn [trace now pulled hangup_after delivered];
    destruct (hangup_after w) as [k | ];
    try destruct (Nat.leb (pulled w) k);
    try destruct (Nat.leb (pulled w + S (stream_length s)) k);
    simpl; rewrite <- ?app_assoc; simpl; rewrite ?app_nil_r; reflexivity.
Qed.

(** A session whose upstream call itself is rejected. *)
Lemma relay_upstream_rejects (body : value) (w : world) (p : string) (e : exn) :
  nonempty apiKey = true ->
  get body "prompt" = Str p ->
  nonempty p = true ->
  generateContentStream apiKey gemini_model p = inl e ->
  effects_of (relay body) w
  = [ResWriteHead 200 sse_headers;
     GenerateContentStream apiKey gemini_model p;
     ConsoleError "Gemini stream error:" e;
     ResWrite error_event;
     ResEnd None].
Proof.
  intros Hk Hb Hp Hs. apply effects_of_app.
  unfold chat_stream. rewrite Hk, Hb.
  unfold truthy. rewrite Hp. cbn [negb orb typeof str_of String.eqb Ascii.eqb Bool.eqb].
  run_handler. rewrite Hs. simpl. rewrite <- !app_assoc. reflexivity.
Qed.

Lemma relay_session_effects (body : value) (w : world) (p : string) (s : stream) :
  nonempty apiKey = true ->
  get body "prompt" = Str p ->
  nonempty p = true ->
  generateContentStream apiKey gemini_model p = inr s ->
  effects_of (relay body) w = session_trace apiKey p s.
Proof.
  intros Hk Hb Hp Hs. apply effects_of_app.
  rewrite (relay_session body w p s Hk Hb Hp Hs). reflexivity.
Qed.

(** C9.  Without a configured API key and with a prompt that is missing or
    not a string, the streaming endpoint answers 500 with the configuration
    error, and so does the single-answer endpoint when the request has a
    body: the key is checked before the prompt.  Without a body the
    single-answer endpoint throws at line 103, before the key check, and the
    catch answers 500 with the generic message.  Neither answers 400. *)
Theorem configuration_check_precedes_prompt_validation (body : value) (w : world) :
  nonempty apiKey = false ->
  negb (truthy (get body "prompt"))
  || negb (String.eqb (typeof (get body "prompt")) "string") = true ->
  let chatted := effects_of (chat_once body) w in
  let relayed := effects_of (relay body) w in
  relayed
  = [ResWriteHead 500 json_headers;
     ResEnd (Some (stringify_obj1 "error" "GEMINI_API_KEY not configured"))]
  /\ (present body = true ->
      chatted = [ResJson 500 (Obj [("error", Str "GEMINI_API_KEY not configured")])])
  /\ (present body = false ->
      exists e,
        chatted = [ConsoleError "Gemini chat error:" e;
                   ResJson 500 (Obj [("error", Str "Failed to generate response")])])
  /\ status_codes chatted = [500]
  /\ status_codes relayed = [500].
Proof.
  intros Hk _ chatted relayed. subst chatted relayed.
  rewrite (relay_unconfigured_trace body w Hk).
  split; [ reflexivity | ].
  destruct (present body) eqn:Hb.
  - rewrite (chat_unconfigured_trace body w Hb Hk).
    split; [ reflexivity | ]. split; [ intros Hc; discriminate Hc | ].
    split; reflexivity.
  - destruct (chat_absent_trace body w Hb) as [e He]. rewrite He.
    split; [ intros Hc; discriminate Hc | ].
    split; [ intros _; exists e; reflexivity | ]. split; reflexivity.
Qed.

(** C8. When the upstream yields the fragments [frags] and is then
    exhausted, the relay writes one data event for each non-empty fragment
    and none for an empty one, in the order of the fragments, between the
    head and the done event.  The data event of a text is, byte for byte,
    the field name and the opening of the object, the quoted text, the
    closing and a blank line; the quoted text holds no control character,
    so the event is one line, and different texts give different events.
    The done event is the line naming it and an empty data line. *)
Theorem relay_writes_one_event_per_nonempty_fragment
    (body : value) (w : world) (p : string) (frags : list string) :
  nonempty apiKey = true ->
  get body "prompt" = Str p ->
  nonempty p = true ->
  generateContentStream apiKey gemini_model p = inr (stream_of frags Exhausted) ->
  let es := effects_of (relay body) w in
  wire es
  = (ResWriteHead 200 sse_headers
     :: data_events frags
     ++ [ResWrite done_event_name; ResWrite done_event_data; ResEnd None])%list
  /\ written es
     = (map data_event (filter nonempty frags) ++ [done_event_name; done_event_data])%list
  /\ (forall t,
        bytes (data_event t)
        = ([100; 97; 116; 97; 58; 32; 123; 34; 116; 101; 120; 116; 34; 58; 34]
           ++ bytes (quote_chars t) ++ [34; 125; 10; 10])%list%N
        /\ Forall (fun n => (32 <= n)%N) (bytes (quote_chars t)))
  /\ (forall t1 t2, data_event t1 = data_event t2 -> t1 = t2)
  /\ bytes done_event_name = [101; 118; 101; 110; 116; 58; 32; 100; 111; 110; 101; 10]%N
  /\ bytes done_event_data = [100; 97; 116; 97; 58; 32; 123; 125; 10; 10]%N.
Proof.
  intros Hk Hb Hp Hs es. subst es.
  rewrite (relay_session_effects body w p _ Hk Hb Hp Hs).
  pose proof (wire_session_trace apiKey p frags Exhausted) as Hw.
  split; [ exact Hw | ]. split.
  - rewrite <- written_wire, Hw. simpl.
    rewrite written_app, written_data_events. reflexivity.
  - split; [ | split; [ exact data_event_text_unique | exact done_event_bytes ] ].
    intros t. split; [ apply data_event_bytes | apply quote_chars_printable ].
Qed.

(** C3. When the upstream yields the fragments [frags] and then fails with
    [e], the wire carries the head, the data events of the fragments
    produced, one error event and the close.  The error event is, byte for
    byte, the one data line with the reason [Streaming failed] and a blank
    line, whatever [e] is.  Every chunk written is one [data:] line with no
    control character in it followed by a blank line, so the stream holds no
    [event:] line and no done event; the data event of a text is the quoted
    text between fixed bytes, and different texts give different events.
    The events of the fragments sent so far remain a prefix of the wire, and
    a client that stays connected receives exactly that. *)
Theorem relay_failure_appends_error_event
    (body : value) (w : world) (p : string) (frags : list string) (e : exn) :
  nonempty apiKey = true ->
  get body "prompt" = Str p ->
  nonempty p = true ->
  generateContentStream apiKey gemini_model p = inr (stream_of frags (Failed e)) ->
  let es := effects_of (relay body) w in
  wire es
  = (ResWriteHead 200 sse_headers
     :: data_events frags ++ [ResWrite error_event; ResEnd None])%list
  /\ bytes error_event
     = [100; 97; 116; 97; 58; 32; 123; 34; 101; 114; 114; 111; 114; 34; 58; 34; 83; 116; 114; 101; 97; 109; 105; 110; 103; 32; 102; 97; 105; 108; 101; 100; 34; 125; 10; 10]%N
  /\ (forall c,
        In (ResWrite c) es ->
        exists payload,
          bytes c = ([100; 97; 116; 97; 58; 32] ++ payload ++ [10; 10])%list%N
          /\ Forall (fun n => (32 <= n)%N) payload)
  /\ (forall t,
        bytes (data_event t)
        = ([100; 97; 116; 97; 58; 32; 123; 34; 116; 101; 120; 116; 34; 58; 34]
           ++ bytes (quote_chars t) ++ [34; 125; 10; 10])%list%N
        /\ Forall (fun n => (32 <= n)%N) (bytes (quote_chars t)))
  /\ (forall t1 t2, data_event t1 = data_event t2 -> t1 = t2)
  /\ bytes done_event_name = [101; 118; 101; 110; 116; 58; 32; 100; 111; 110; 101; 10]%N
  /\ ~ In (ResWrite done_event_name) es
  /\ (forall sent later,
        frags = (sent ++ later)%list ->
        exists rest,
          wire es = ((ResWriteHead 200 sse_headers :: data_events sent) ++ rest)%list)
  /\ (hangup_after w = None ->
      delivered (run (relay body) w) = (delivered w ++ wire es)%list).
Proof.
  intros Hk Hb Hp Hs es. subst es.
  rewrite (relay_session_effects body w p _ Hk Hb Hp Hs).
  pose proof (wire_session_trace apiKey p frags (Failed e)) as Hw.
  split; [ exact Hw | ]. split; [ exact error_event_bytes | ].
  split; [ | split; [ | split; [ exact data_event_text_unique | ] ] ].
  - intros c Hin. apply in_wire in Hin; [ | reflexivity ].
    rewrite Hw in Hin. destruct Hin as [Hin | Hin]; [ discriminate Hin | ].
    apply in_app_or in Hin. destruct Hin as [Hin | Hin].
    + unfold data_events in Hin. apply in_map_iff in Hin.
      destruct Hin as [t [Ht _]].
      assert (Hc : c = data_event t) by congruence.
      subst c. apply data_event_one_line.
    + destruct Hin as [Hin | [Hin | []]]; [ | discriminate Hin ].
      assert (Hc : c = error_event) by congruence.
      subst c. apply error_event_one_line.
  - intros t. split; [ apply data_event_bytes | apply quote_chars_printable ].
  - split; [ exact (proj1 done_event_bytes) | ]. split; [ | split ].
    + intros Hin. apply in_wire in Hin; [ | reflexivity ].
      rewrite Hw in Hin. destruct Hin as [Hin | Hin]; [ discriminate Hin | ].
      apply in_app_or in Hin. destruct Hin as [Hin | Hin].
      * unfold data_events in Hin. apply in_map_iff in Hin.
        destruct Hin as [t [Ht _]].
        apply (data_event_not_done t). congruence.
      * destruct Hin as [Hin | [Hin | []]]; discriminate Hin.
    + intros sent later ->. rewrite Hw, data_events_app.
      eexists. simpl. rewrite <- app_assoc. reflexivity.
    + intros Hopen. rewrite (relay_session body w p _ Hk Hb Hp Hs). simpl.
      rewrite Hopen, deliver_open. reflexivity.
Qed.


End Generation.

(** ** Credentials *)

(** C5.  With the key id configured and the secret not (the module loads:
    the constructor of line 34 is given a key id), order creation answers
    500 for every request, but payment verification does not look at the
    keys: it computes the HMAC of the payload under the empty secret and
    answers 200, and a signature computed under the empty secret verifies
    and publishes the event. *)
Theorem verification_runs_without_secret
    (process_env : string -> option string)
    (hmac_sha256_hex : string -> string -> string)
    (NumberToString : number -> string) (ObjectToString : value -> exn + string)
    (orders_create : value -> exn + value)
    (StringToNumber : string -> number) (ObjectToNumber : value -> exn + number)
    (body : value) (o p signature : string) (w : world) :
  nonempty (razorpayKeyId process_env) = true ->
  nonempty (razorpayKeySecret process_env) = false ->
  nonempty o = true ->
  nonempty p = true ->
  nonempty signature = true ->
  let created :=
    effects_of (create_order process_env orders_create StringToNumber ObjectToNumber body) w in
  let verified :=
    effects_of (verify_payment process_env hmac_sha256_hex NumberToString ObjectToString
                               (verify_body o p signature)) w in
  created
  = [ResJson 500
       (Obj [("success", Bool false); ("error", Str "Razorpay keys not configured")])]
  /\ status_codes verified = [200]
  /\ hmac_calls verified = [("", o ++ "|" ++ p)]
  /\ (signature = hmac_sha256_hex "" (o ++ "|" ++ p) ->
      published verified = [verified_event (Str o) (Str p)]
      /\ wire verified = [ResJson 200 (Obj [("success", Bool true)])]).
Proof.
  intros Hid Hsecret Ho Hp Hs created verified. subst created verified.
  assert (Hcfg : nonempty (razorpayKeyId process_env)
                 && nonempty (razorpayKeySecret process_env) = false)
    by (rewrite Hid, Hsecret; reflexivity).
  rewrite (create_unconfigured_trace process_env orders_create StringToNumber
             ObjectToNumber body w Hcfg).
  rewrite (verify_present_trace process_env hmac_sha256_hex NumberToString ObjectToString
             (verify_body o p signature) w o p Ho Hp Hs eq_refl eq_refl).
  apply nonempty_false in Hsecret. rewrite Hsecret.
  change (get (verify_body o p signature) "razorpay_signature") with (Str signature).
  change (get (verify_body o p signature) "razorpay_order_id") with (Str o).
  change (get (verify_body o p signature) "razorpay_payment_id") with (Str p).
  split; [ reflexivity | ].
  split; [ destruct (strict_eq_str _ _); reflexivity | ].
  split; [ destruct (strict_eq_str _ _); reflexivity | ].
  intros ->. simpl. rewrite String.eqb_refl. split; reflexivity.
Qed.

(** ** Counterexamples to the claims as stated *)

(** C6 as stated fails twice.  With the key id set and the secret unset
    the module loads, and a request with amount zero is answered with 500,
    not 400.  And the product is the binary64 one: for the amount 0.015
    (the number 8646911284551352 * 2^-59) the integer nearest to the amount
    times 100 is 1, while the product rounds to 1.5 and the amount sent is
    2. *)
Lemma order_claim_fails_without_secret_and_at_0_015 :
  (startup razorpay_refuses_empty_id env_id_only = inr tt
   /\ zero_or_negative pzero = true
   /\ status_codes
        (effects_of
           (create_order env_id_only toy_orders_create no_string_to_number
                         no_object_to_number (amount_body pzero))
           (start 0 None))
      = [500])
  /\ (n0_015 = S754_finite false 8646911284551352 (-59)
      /\ nearest_integer 1 (100 * 8646911284551352) (-59)
      /\ get (hd Undefined
                 (order_calls
                    (effects_of
                       (create_order env_set toy_orders_create no_string_to_number
                                     no_object_to_number (amount_body n0_015))
                       (start 0 None))))
             "amount"
         = Num (of_Z 2)
      /\ of_Z 2 = S754_finite false 4503599627370496 (-51)
      /\ of_Z 1 = S754_finite false 4503599627370496 (-52)).
Proof.
  split.
  - repeat split.
  - split; [ vm_compute; reflexivity | ].
    split; [ | split ].
    + unfold nearest_integer. vm_compute. split; [ intros H; discriminate H | reflexivity ].
    + vm_compute. reflexivity.
    + split; vm_compute; reflexivity.
Qed.


(** ** The theorems at concrete requests *)

Lemma verified_event_iff_signature_matches_witness :
  published
    (effects_of
       (verify_payment env_set toy_hmac toy_number_to_string toy_object_to_string
          (verify_body "order_1" "pay_1" (toy_hmac "s3cret" "order_1|pay_1")))
       (start 0 None))
  = [verified_event (Str "order_1") (Str "pay_1")].
Proof.
  apply (proj2 (proj1 (proj2 (verified_event_iff_signature_matches
                                env_set toy_hmac toy_number_to_string toy_object_to_string
                                (verify_body "order_1" "pay_1"
                                   (toy_hmac "s3cret" "order_1|pay_1"))
                                (start 0 None))
                             "order_1" "pay_1" eq_refl eq_refl eq_refl eq_refl eq_refl))).
  reflexivity.
Defined.

Lemma verification_runs_without_secret_witness :
  startup razorpay_refuses_empty_id env_id_only = inr tt
  /\ status_codes
       (effects_of
          (verify_payment env_id_only toy_hmac toy_number_to_string toy_object_to_string
             (verify_body "order_1" "pay_1" (toy_hmac "" "order_1|pay_1")))
          (start 0 None))
     = [200]
  /\ published
       (effects_of
          (verify_payment env_id_only toy_hmac toy_number_to_string toy_object_to_string
             (verify_body "order_1" "pay_1" (toy_hmac "" "order_1|pay_1")))
          (start 0 None))
     = [verified_event (Str "order_1") (Str "pay_1")].
Proof.
  pose proof (verification_runs_without_secret
                env_id_only toy_hmac toy_number_to_string toy_object_to_string
                toy_orders_create no_string_to_number no_object_to_number
                (amount_body n19_99) "order_1" "pay_1" (toy_hmac "" "order_1|pay_1")
                (start 0 None) eq_refl eq_refl eq_refl eq_refl eq_refl)
    as [_ [Hstatus [_ Hpub]]].
  split; [ reflexivity | ]. split; [ exact Hstatus | ].
  exact (proj1 (Hpub eq_refl)).
Defined.

Lemma missing_field_rejected_before_hmac_witness :
  exists e,
    effects_of
      (verify_payment env_set toy_hmac toy_number_to_string toy_object_to_string Undefined)
      (start 0 None)
    = [ConsoleError "Error verifying payment:" e;
       ResJson 500 (Obj [("success", Bool false); ("error", Str "Verification failed")])].
Proof.
  apply (proj1 (proj2 (missing_field_rejected_before_hmac
                         env_set toy_hmac toy_number_to_string toy_object_to_string
                         Undefined (start 0 None) eq_refl))).
  reflexivity.
Defined.

Lemma order_options_fixed_currency_and_receipt_witness :
  get (options_sent (Obj [("amount", Num n19_99); ("currency", Str "USD")]))
      "currency"
  = Str "INR".
Proof.
  apply (order_options_fixed_currency_and_receipt
           env_set toy_orders_create no_string_to_number no_object_to_number
           (Obj [("amount", Num n19_99); ("currency", Str "USD")])
           (start 1700000000000 None)).
  vm_compute. left. reflexivity.
Defined.

Lemma amount_conversion_when_configured_witness :
  order_calls
    (effects_of
       (create_order env_set toy_orders_create no_string_to_number no_object_to_number
                     (amount_body (of_Z (-5))))
       (start 0 None))
  = [].
Proof.
  apply (proj1 (amount_conversion_when_configured
                  env_set toy_orders_create no_string_to_number no_object_to_number
                  (amount_body (of_Z (-5))) (start 0 None) (of_Z (-5))
                  eq_refl eq_refl eq_refl)).
  reflexivity.
Defined.

Lemma configuration_check_precedes_prompt_validation_witness :
  startup razorpay_refuses_empty_id env_no_gemini = inr tt
  /\ exists e,
       effects_of (chat env_no_gemini toy_generate Undefined) (start 0 None)
       = [ConsoleError "Gemini chat error:" e;
          ResJson 500 (Obj [("error", Str "Failed to generate response")])].
Proof.
  split; [ reflexivity | ].
  apply (proj1 (proj2 (proj2 (configuration_check_precedes_prompt_validation
                                env_no_gemini toy_generate four_fragments
                                Undefined (start 0 None) eq_refl eq_refl)))).
  reflexivity.
Defined.

(** Three fragments, the second empty, the third with two quotes and a line
    feed in it: two data events, the second with the quotes and the line
    feed escaped, then the done event. *)
Lemma relay_writes_one_event_per_nonempty_fragment_witness :
  map bytes
    (written
       (effects_of (chat_stream env_set awkward_fragments (prompt_body "hi"))
                   (start 0 None)))
  = [ [100; 97; 116; 97; 58; 32; 123; 34; 116; 101; 120; 116; 34; 58; 34; 72; 101; 108; 34; 125; 10; 10];
      [100; 97; 116; 97; 58; 32; 123; 34; 116; 101; 120; 116; 34; 58; 34; 92; 34; 97; 92; 34; 92; 110; 98; 34; 125; 10; 10];
      [101; 118; 101; 110; 116; 58; 32; 100; 111; 110; 101; 10];
      [100; 97; 116; 97; 58; 32; 123; 125; 10; 10] ]%N.
Proof.
  rewrite (proj1 (proj2 (relay_writes_one_event_per_nonempty_fragment
                           env_set awkward_fragments (prompt_body "hi") (start 0 None)
                           "hi" ["Hel"; ""; quoted_fragment]
                           eq_refl eq_refl eq_refl eq_refl))).
  vm_compute. reflexivity.
Defined.

(** The fragments Hel and lo, then a failure: the two data events and the
    error event, byte for byte, between the head and the close. *)
Lemma relay_failure_appends_error_event_witness :
  wire
    (effects_of (chat_stream env_set hel_lo_fails (prompt_body "hi")) (start 0 None))
  = [ResWriteHead 200 sse_headers;
     ResWrite (data_event "Hel"); ResWrite (data_event "lo");
     ResWrite error_event; ResEnd None]
  /\ map bytes
       (written
          (wire (effects_of (chat_stream env_set hel_lo_fails (prompt_body "hi"))
                            (start 0 None))))
     = [ [100; 97; 116; 97; 58; 32; 123; 34; 116; 101; 120; 116; 34; 58; 34; 72; 101; 108; 34; 125; 10; 10];
         [100; 97; 116; 97; 58; 32; 123; 34; 116; 101; 120; 116; 34; 58; 34; 108; 111; 34; 125; 10; 10];
         [100; 97; 116; 97; 58; 32; 123; 34; 101; 114; 114; 111; 114; 34; 58; 34; 83; 116; 114; 101; 97; 109; 105; 110; 103; 32; 102; 97; 105; 108; 101; 100; 34; 125; 10; 10] ]%N.
Proof.
  pose proof (proj1 (relay_failure_appends_error_event
                       env_set hel_lo_fails (prompt_body "hi") (start 0 None)
                       "hi" ["Hel"; "lo"] "upstream reset"
                       eq_refl eq_refl eq_refl eq_refl)) as Hw.
  split; [ exact Hw | ].
  rewrite Hw. vm_compute. reflexivity.
Defined.


(** * Further properties of the handlers *)

(** ** Payment verification *)

Section VerificationEdges.

Variable process_env : string -> option string.
Variable hmac_sha256_hex : string -> string -> string.
Variable NumberToString : number -> string.
Variable ObjectToString : value -> exn + string.

Local Notation verify :=
  (verify_payment process_env hmac_sha256_hex NumberToString ObjectToString).
Local Notation secret := (razorpayKeySecret process_env).
Local Notation to_str := (to_string NumberToString ObjectToString).

(** X1. The comparison of line 87 does not convert: a signature that is
    not a string (a number, an array, an object) never verifies, whatever it
    would print as; the call answers [success: false] and publishes
    nothing. *)
Theorem non_string_signature_never_verifies
    (body : value) (w : world) (o p : string) :
  truthy (get body "razorpay_order_id") = true ->
  truthy (get body "razorpay_payment_id") = true ->
  truthy (get body "razorpay_signature") = true ->
  to_str (get body "razorpay_order_id") = inr o ->
  to_str (get body "razorpay_payment_id") = inr p ->
  String.eqb (typeof (get body "razorpay_signature")) "string" = false ->
  wire (effects_of (verify body) w) = [ResJson 200 (Obj [("success", Bool false)])]
  /\ published (effects_of (verify body) w) = [].
Proof.
  intros Ho Hp Hs Eo Ep Hty.
  rewrite (verify_present_trace process_env hmac_sha256_hex NumberToString
             ObjectToString body w o p Ho Hp Hs Eo Ep).
  assert (Hne : strict_eq_str (hmac_sha256_hex secret (o ++ "|" ++ p))
                              (get body "razorpay_signature") = false).
  { destruct (get body "razorpay_signature"); try reflexivity. discriminate Hty. }
  rewrite Hne. split; reflexivity.
Qed.

(** X2. When an identifier cannot be converted to a string (the template
    literal of line 81 throws), the call is answered with 500 and the fixed
    message; no HMAC is computed and nothing is published. *)
Theorem unconvertible_identifier_is_500
    (body : value) (w : world) (e : exn) :
  truthy (get body "razorpay_order_id") = true ->
  truthy (get body "razorpay_payment_id") = true ->
  truthy (get body "razorpay_signature") = true ->
  to_str (get body "razorpay_order_id") = inl e
  \/ ((exists o, to_str (get body "razorpay_order_id") = inr o)
      /\ to_str (get body "razorpay_payment_id") = inl e) ->
  effects_of (verify body) w
  = [ConsoleError "Error verifying payment:" e;
     ResJson 500 (Obj [("success", Bool false); ("error", Str "Verification failed")])]
  /\ hmac_calls (effects_of (verify body) w) = []
  /\ published (effects_of (verify body) w) = [].
Proof.
  intros Ho Hp Hs Hthrow.
  assert (He : effects_of (verify body) w
               = [ConsoleError "Error verifying payment:" e;
                  ResJson 500 (Obj [("success", Bool false);
                                    ("error", Str "Verification failed")])]).
  { apply effects_of_app.
    unfold verify_payment, destructure. rewrite (truthy_get_present _ _ Ho).
    run_handler. rewrite Ho, Hp, Hs. simpl.
    destruct Hthrow as [Eo | [[o Eo] Ep]].
    - rewrite Eo. simpl. rewrite <- app_assoc. reflexivity.
    - rewrite Eo, Ep. simpl. rewrite <- app_assoc. reflexivity. }
  rewrite He. repeat split.
Qed.

(** X3. The signed payload is the two identifiers joined by a bar, so it
    does not determine them: two requests whose joined payloads coincide
    verify under the same signature, each publishing its own pair of
    identifiers. *)
Theorem joined_payload_is_ambiguous
    (o1 p1 o2 p2 signature : string) (w1 w2 : world) :
  nonempty o1 = true -> nonempty p1 = true ->
  nonempty o2 = true -> nonempty p2 = true ->
  nonempty signature = true ->
  o1 ++ "|" ++ p1 = o2 ++ "|" ++ p2 ->
  published (effects_of (verify (verify_body o1 p1 signature)) w1)
  = [verified_event (Str o1) (Str p1)] ->
  published (effects_of (verify (verify_body o2 p2 signature)) w2)
  = [verified_event (Str o2) (Str p2)].
Proof.
  intros Ho1 Hp1 Ho2 Hp2 Hs Hjoin.
  rewrite (verify_present_trace process_env hmac_sha256_hex NumberToString
             ObjectToString (verify_body o1 p1 signature) w1 o1 p1
             Ho1 Hp1 Hs eq_refl eq_refl).
  rewrite (verify_present_trace process_env hmac_sha256_hex NumberToString
             ObjectToString (verify_body o2 p2 signature) w2 o2 p2
             Ho2 Hp2 Hs eq_refl eq_refl).
  rewrite Hjoin.
  change (get (verify_body o1 p1 signature) "razorpay_signature") with (Str signature).
  change (get (verify_body o2 p2 signature) "razorpay_signature") with (Str signature).
  destruct (strict_eq_str _ (Str signature)); simpl.
  - intros _. reflexivity.
  - intros H. discriminate H.
Qed.

(** X4. Every verification call sends exactly one response, with status
    200, 400 or 500; it computes at most one HMAC, keyed with the configured
    secret, and publishes at most one event. *)
Theorem verify_sends_one_response (body : value) (w : world) :
  let es := effects_of (verify body) w in
  (exists code b,
      wire es = [ResJson code b] /\ (code = 200 \/ code = 400 \/ code = 500))
  /\ (List.length (hmac_calls es) <= 1)%nat
  /\ (forall key payload, In (key, payload) (hmac_calls es) -> key = secret)
  /\ (List.length (published es) <= 1)%nat.
Proof.
  intros es. subst es.
  destruct (truthy (get body "razorpay_order_id")
            && truthy (get body "razorpay_payment_id")
            && truthy (get body "razorpay_signature")) eqn:Hall.
  - destruct (to_str (get body "razorpay_order_id")) as [e1|o] eqn:Eo;
      [ | destruct (to_str (get body "razorpay_payment_id")) as [e2|p] eqn:Ep ].
    + destruct (verify_throw_trace process_env hmac_sha256_hex NumberToString
                  ObjectToString body w Hall) as [e He].
      { intros o p Ho. congruence. }
      rewrite He. simpl. split; [ eauto 6 | ].
      split; [ lia | ]. split; [ intros k pl [] | lia ].
    + destruct (verify_throw_trace process_env hmac_sha256_hex NumberToString
                  ObjectToString body w Hall) as [e He].
      { intros o' p Ho Hp. congruence. }
      rewrite He. simpl. split; [ eauto 6 | ].
      split; [ lia | ]. split; [ intros k pl [] | lia ].
    + pose proof Hall as H3.
      apply andb_prop in H3 as [H3 Hs]. apply andb_prop in H3 as [Ho Hp].
      rewrite (verify_present_trace process_env hmac_sha256_hex NumberToString
                 ObjectToString body w o p Ho Hp Hs Eo Ep).
      destruct (strict_eq_str _ _); simpl.
      * split; [ eauto 6 | ]. split; [ lia | ].
        split; [ | lia ]. intros k pl [H | []]. congruence.
      * split; [ eauto 6 | ]. split; [ lia | ].
        split; [ | lia ]. intros k pl [H | []]. congruence.
  - destruct (present body) eqn:Hbody.
    + rewrite (verify_missing_trace process_env hmac_sha256_hex NumberToString
                 ObjectToString body w Hbody Hall).
      simpl. split; [ eauto 6 | ].
      split; [ lia | ]. split; [ intros k pl [] | lia ].
    + destruct (verify_absent_trace process_env hmac_sha256_hex NumberToString
                  ObjectToString body w Hbody) as [e He].
      rewrite He. simpl. split; [ eauto 6 | ].
      split; [ lia | ]. split; [ intros k pl [] | lia ].
Qed.

End VerificationEdges.

(** ** Signs of rounded numbers *)

Lemma shr_1_nonneg (mrs : shr_record) : 0 <= shr_m mrs -> 0 <= shr_m (shr_1 mrs).
Proof.
  destruct mrs as [m r s]. destruct m as [ | q | q]; simpl; intros H;
    try lia; destruct q; simpl; lia.
Qed.

Lemma iter_shr_1_nonneg (q : positive) :
  forall mrs, 0 <= shr_m mrs -> 0 <= shr_m (iter_pos shr_1 q mrs).
Proof.
  induction q as [q IH | q IH | ]; simpl; intros mrs H.
  - apply IH, IH, shr_1_nonneg, H.
  - apply IH, IH, H.
  - apply shr_1_nonneg, H.
Qed.

Lemma shr_fexp_nonneg (m e : Z) (l : location) :
  0 <= m -> 0 <= shr_m (fst (shr_fexp prec emax m e l)).
Proof.
  intros H. unfold shr_fexp, shr.
  assert (H0 : 0 <= shr_m (shr_record_of_loc m l)) by (destruct l as [ | [ | | ]]; exact H).
  destruct (fexp prec emax (Zdigits2 m + e) - e); simpl; try exact H0.
  apply iter_shr_1_nonneg, H0.
Qed.

Lemma round_nearest_even_nonneg (m : Z) (l : location) :
  0 <= m -> 0 <= round_nearest_even m l.
Proof.
  intros H. destruct l as [ | [ | | ]]; simpl; try destruct (Z.even m); lia.
Qed.

(** Rounding a non-negative mantissa gives a number of the sign asked for,
    never NaN. *)
Lemma binary_round_aux_sign (sx : bool) (mx ex : Z) (lx : location) :
  0 <= mx -> has_sign sx (binary_round_aux prec emax sx mx ex lx).
Proof.
  intros H. unfold binary_round_aux.
  pose proof (shr_fexp_nonneg mx ex lx H) as H1.
  destruct (shr_fexp prec emax mx ex lx) as [mrs1 e1]. simpl in H1.
  pose proof (shr_fexp_nonneg _ e1 loc_Exact
                (round_nearest_even_nonneg _ (loc_of_shr_record mrs1) H1)) as H2.
  destruct (shr_fexp prec emax _ e1 loc_Exact) as [mrs2 e2]. simpl in H2.
  destruct (shr_m mrs2) as [ | q | q]; simpl.
  - reflexivity.
  - destruct (_ <=? _); simpl; reflexivity.
  - lia.
Qed.

Lemma of_Z_sign (z : Z) : 0 < z -> has_sign false (of_Z z).
Proof.
  intros H. destruct z as [ | q | q]; try lia.
  unfold of_Z, binary_normalize, binary_round.
  destruct (shl_align _ _ _) as [mz ez]. apply binary_round_aux_sign. lia.
Qed.

Lemma of_Z_100 : of_Z 100 = S754_finite false 7036874417766400 (-46).
Proof. vm_compute. reflexivity. Qed.

Lemma mul_100_sign (x : number) :
  positive_number x = true -> has_sign false (mul x (of_Z 100)).
Proof.
  intros H. rewrite of_Z_100.
  destruct x as [ s | s | | s m e ]; simpl in H; try discriminate H;
    destruct s; try discriminate H.
  - reflexivity.
  - unfold mul, SFmul. apply binary_round_aux_sign. lia.
Qed.

Lemma round_Z_nonneg (m : positive) (e : Z) : 0 <= round_Z false m e.
Proof.
  unfold round_Z. change (cond_Zopp false (Z.pos m)) with (Z.pos m).
  destruct (0 <=? e) eqn:He.
  - apply Z.leb_le in He.
    assert (0 <= 2 ^ e) by (apply Z.pow_nonneg; lia). nia.
  - apply Z.leb_gt in He.
    assert (0 < 2 ^ (- e)) by (apply Z.pow_pos_nonneg; lia).
    assert (0 < 2 ^ (- e + 1)) by (apply Z.pow_pos_nonneg; lia).
    apply Z.div_pos; lia.
Qed.

Lemma Math_round_sign (x : number) :
  has_sign false x -> has_sign false (Math_round x).
Proof.
  destruct x as [ s | s | | s m e ]; simpl; intros H; try exact H.
  subst s. unfold Math_round.
  pose proof (round_Z_nonneg m e) as Hr.
  destruct (round_Z false m e =? 0) eqn:H0.
  - reflexivity.
  - apply Z.eqb_neq in H0. apply of_Z_sign. lia.
Qed.

Lemma accepted_is_positive (x : number) :
  negb (truthy (Num x)) || leb x pzero = false -> positive_number x = true.
Proof. destruct x as [ [|] | [|] | | [|] m e ]; simpl; intros H; try discriminate H; reflexivity. Qed.

(** ** Order creation *)

Section OrderEdges.

Variable process_env : string -> option string.
Variable orders_create : value -> exn + value.
Variable StringToNumber : string -> number.
Variable ObjectToNumber : value -> exn + number.

Local Notation create :=
  (create_order process_env orders_create StringToNumber ObjectToNumber).
Local Notation to_num := (to_number StringToNumber ObjectToNumber).
Local Notation key_id := (razorpayKeyId process_env).
Local Notation key_secret := (razorpayKeySecret process_env).
Local Notation options_for x t :=
  (Obj [("amount", Num (Math_round (mul x (of_Z 100))));
        ("currency", Str "INR");
        ("receipt", Str ("rcpt_" ++ dec t))]).

(** Every path of the handler, by cases. *)
Lemma create_paths (body : value) (w : world) :
  let es := effects_of (create body) w in
  es = [ResJson 500
          (Obj [("success", Bool false); ("error", Str "Razorpay keys not configured")])]
  \/ es = [ResJson 400 (Obj [("success", Bool false); ("error", Str "Invalid amount")])]
  \/ (exists e,
         es = [ConsoleError "Error creating order:" e;
               ResJson 500
                 (Obj [("success", Bool false); ("error", Str "Failed to create order")])])
  \/ (exists x,
         positive_number x = true
         /\ ((exists order,
                 orders_create (options_for x (now w)) = inr order
                 /\ es = [OrdersCreate (options_for x (now w));
                          ResJson 200
                            (Obj [("success", Bool true); ("order", order);
                                  ("key_id", Str key_id)])])
             \/ (exists e,
                    orders_create (options_for x (now w)) = inl e
                    /\ es = [OrdersCreate (options_for x (now w));
                             ConsoleError "Error creating order:" e;
                             ResJson 500
                               (Obj [("success", Bool false);
                                     ("error", Str "Failed to create order")])]))).
Proof.
  intros es. subst es.
  destruct (nonempty key_id && nonempty key_secret) eqn:H.
  - destruct (to_num (get body "amount")) as [e|x] eqn:Hx.
    + right. right. left. exists e.
      apply (create_coercion_trace process_env orders_create StringToNumber
               ObjectToNumber body w e H Hx).
    + destruct (negb (truthy (Num x)) || leb x pzero) eqn:Hc.
      * destruct (present body) eqn:Hb.
        -- right. left.
           apply (create_rejected_trace process_env orders_create StringToNumber
                    ObjectToNumber body w x Hb H Hx Hc).
        -- right. right. left.
           apply (create_absent_trace process_env orders_create StringToNumber
                    ObjectToNumber body w Hb H).
      * right. right. right. exists x. split; [ exact (accepted_is_positive x Hc) | ].
        rewrite (create_accepted_trace process_env orders_create StringToNumber
                   ObjectToNumber body w x H Hx Hc).
        destruct (orders_create _) as [e|order].
        -- right. exists e. split; reflexivity.
        -- left. exists order. split; reflexivity.
  - left.
    apply (create_unconfigured_trace process_env orders_create StringToNumber
             ObjectToNumber body w H).
Qed.

(** X5. When the upstream order creation fails, the call is answered with
    500 and the fixed message; the upstream error goes to the log only. *)
Theorem upstream_order_failure_is_500
    (body : value) (w : world) (x : number) (e : exn) :
  nonempty key_id = true ->
  nonempty key_secret = true ->
  to_num (get body "amount") = inr x ->
  positive_number x = true ->
  orders_create (options_for x (now w)) = inl e ->
  effects_of (create body) w
  = [OrdersCreate (options_for x (now w));
     ConsoleError "Error creating order:" e;
     ResJson 500 (Obj [("success", Bool false); ("error", Str "Failed to create order")])].
Proof.
  intros Hk Hs Hx Hp He.
  assert (H : nonempty key_id && nonempty key_secret = true) by (rewrite Hk, Hs; reflexivity).
  rewrite (create_accepted_trace process_env orders_create StringToNumber
             ObjectToNumber body w x H Hx (positive_number_accepted x Hp)).
  rewrite He. reflexivity.
Qed.


(** X7. With the keys configured, a request that has a body in which the
    amount is absent, null, false, zero or NaN is answered with 400 and no
    upstream call is made.  A request without a body never reaches the
    amount test: line 55 throws and the catch answers 500. *)
Theorem missing_amount_is_rejected (body : value) (w : world) :
  nonempty key_id = true ->
  nonempty key_secret = true ->
  truthy (get body "amount") = false ->
  String.eqb (typeof (get body "amount")) "string" = false ->
  let es := effects_of (create body) w in
  (present body = true ->
   es = [ResJson 400 (Obj [("success", Bool false); ("error", Str "Invalid amount")])])
  /\ (present body = false ->
      exists e,
        es = [ConsoleError "Error creating order:" e;
              ResJson 500
                (Obj [("success", Bool false); ("error", Str "Failed to create order")])])
  /\ order_calls es = [].
Proof.
  intros Hk Hs Hf Hty es. subst es.
  assert (H : nonempty key_id && nonempty key_secret = true) by (rewrite Hk, Hs; reflexivity).
  destruct (present body) eqn:Hb.
  - assert (Hx : exists x, to_num (get body "amount") = inr x
                           /\ negb (truthy (Num x)) || leb x pzero = true).
    { destruct (get body "amount") as [ | | b | n | s | l | l ];
        try discriminate Hf; try discriminate Hty.
      - exists NaN. split; reflexivity.
      - exists pzero. split; reflexivity.
      - destruct b; [ discriminate Hf | ]. exists pzero. split; reflexivity.
      - exists n. split; [ reflexivity | ]. rewrite Hf. reflexivity. }
    destruct Hx as [x [Hx Hc]].
    rewrite (create_rejected_trace process_env orders_create StringToNumber
               ObjectToNumber body w x Hb H Hx Hc).
    split; [ reflexivity | ]. split; [ intros Hc'; discriminate Hc' | reflexivity ].
  - destruct (create_absent_trace process_env orders_create StringToNumber
                ObjectToNumber body w Hb H) as [e He].
    rewrite He. split; [ intros Hc; discriminate Hc | ].
    split; [ intros _; exists e; reflexivity | reflexivity ].
Qed.

(** X8. The amount test is on major units only: a positive amount whose
    product with 100 rounds to zero passes it and is sent upstream as an
    amount of zero minor units. *)
Theorem sub_unit_amount_is_sent_as_zero
    (body : value) (w : world) (x : number) (s : bool) (m : positive) (e : Z) :
  nonempty key_id = true ->
  nonempty key_secret = true ->
  to_num (get body "amount") = inr x ->
  positive_number x = true ->
  mul x (of_Z 100) = S754_finite s m e ->
  round_Z s m e = 0 ->
  exists options,
    order_calls (effects_of (create body) w) = [options]
    /\ get options "amount" = Num (S754_zero s)
    /\ truthy (get options "amount") = false.
Proof.
  intros Hk Hs Hx Hp Hm Hr.
  assert (H : nonempty key_id && nonempty key_secret = true) by (rewrite Hk, Hs; reflexivity).
  rewrite (create_accepted_trace process_env orders_create StringToNumber
             ObjectToNumber body w x H Hx (positive_number_accepted x Hp)).
  eexists. split; [ destruct (orders_create _); reflexivity | ].
  simpl. rewrite Hm. unfold Math_round. rewrite Hr. simpl. split; reflexivity.
Qed.

(** X9. The amount of an upstream call is never negative and never NaN: it
    is +0, a positive number or +Infinity. *)
Theorem sent_amount_is_not_negative (body : value) (w : world) (options : value) :
  In options (order_calls (effects_of (create body) w)) ->
  exists a, get options "amount" = Num a /\ has_sign false a.
Proof.
  intros Hin.
  destruct (create_paths body w) as [H | [H | [[e H] | [x [Hp [[order [Ho H]] | [e [Ho H]]]]]]]];
    rewrite H in Hin; simpl in Hin; try contradiction;
    destruct Hin as [<- | []];
    (eexists; split; [ reflexivity | apply Math_round_sign, mul_100_sign, Hp ]).
Qed.

End OrderEdges.

(** ** The relay loop, continued *)

Lemma relay_trace_elements (s : stream) (e : effect) :
  In e (relay_trace s) -> e = StreamNext \/ exists t, e = ResWrite (data_event t).
Proof.
  induction s as [ | err | text rest IH]; simpl.
  - intros [<- | []]. left. reflexivity.
  - intros [<- | []]. left. reflexivity.
  - intros [<- | Hin]; [ left; reflexivity | ].
    destruct (nonempty text); simpl in Hin.
    + destruct Hin as [<- | Hin]; [ right; exists text; reflexivity | exact (IH Hin) ].
    + exact (IH Hin).
Qed.


(** When pull [k + 1] is made, the data events of the first [k] fragments
    have been written, and nothing else. *)
Lemma before_pull_relay_trace (x : ending) (rest : list effect) (frags : list string) :
  forall k,
    (k <= List.length frags)%nat ->
    written (before_pull k (relay_trace (stream_of frags x) ++ rest))
    = map data_event (filter nonempty (firstn k frags))
    /\ pulls (before_pull k (relay_trace (stream_of frags x) ++ rest)) = k.
Proof.
  induction frags as [ | t r IH]; intros k Hk.
  - simpl in Hk. replace k with 0%nat by lia. destruct x; split; reflexivity.
  - destruct k as [ | k]; [ split; reflexivity | ].
    simpl in Hk. destruct (IH k ltac:(lia)) as [IHw IHp].
    simpl. destruct (nonempty t); simpl; unfold pulls in *; simpl;
      rewrite IHw, IHp; split; reflexivity.
Qed.

(** ** Text generation, continued *)

Section GenerationEdges.

Variable process_env : string -> option string.
Variable generateContent : string -> string -> string -> exn + string.
Variable generateContentStream : string -> string -> string -> exn + stream.

Local Notation chat_once := (chat process_env generateContent).
Local Notation relay := (chat_stream process_env generateContentStream).
Local Notation apiKey := (gemini_apiKey process_env).

Lemma valid_prompt_is_string (v : value) :
  negb (truthy v) || negb (String.eqb (typeof v) "string") = false ->
  exists p, v = Str p /\ nonempty p = true.
Proof.
  destruct v as [ | | b | n | s | l | l ]; unfold truthy; simpl; intros H;
    try discriminate H;
    try (rewrite orb_true_r in H; discriminate H).
  exists s. split; [ reflexivity | ].
  destruct (nonempty s); [ reflexivity | discriminate H ].
Qed.

Lemma chat_valid_trace (body : value) (w : world) (p : string) :
  nonempty apiKey = true ->
  get body "prompt" = Str p ->
  nonempty p = true ->
  effects_of (chat_once body) w
  = GenerateContent apiKey gemini_model p
    :: match generateContent apiKey gemini_model p with
       | inr text => [ResJson 200 (Obj [("text", Str text)])]
       | inl e =>
           [ConsoleError "Gemini chat error:" e;
            ResJson 500 (Obj [("error", Str "Failed to generate response")])]
       end.
Proof.
  intros Hk Hb Hp. apply effects_of_app.
  assert (Hpres : present body = true).
  { destruct body; try reflexivity; discriminate Hb. }
  unfold chat, read. rewrite Hpres, bind_ret, Hk, Hb.
  unfold truthy. rewrite Hp. cbn [negb orb typeof str_of String.eqb Ascii.eqb Bool.eqb].
  run_handler. destruct (generateContent _ _ _); simpl; rewrite <- ?app_assoc; reflexivity.
Qed.

(** The key, when it is not empty, comes from the environment, the first
    variable taking precedence. *)
Lemma apiKey_origin :
  nonempty apiKey = true ->
  process_env "GEMINI_API_KEY" = Some apiKey
  \/ ((process_env "GEMINI_API_KEY" = None \/ process_env "GEMINI_API_KEY" = Some "")
      /\ process_env "GOOGLE_API_KEY" = Some apiKey).
Proof.
  unfold gemini_apiKey, env_or.
  destruct (process_env "GEMINI_API_KEY") as [g | ] eqn:Hg.
  - destruct (nonempty g) eqn:Hne.
    + intros _. left. reflexivity.
    + apply nonempty_false in Hne. subst g.
      destruct (process_env "GOOGLE_API_KEY") as [k | ]; [ | intros H; discriminate H ].
      destruct (nonempty k); [ | intros H; discriminate H ].
      intros _. right. split; [ right | ]; reflexivity.
  - destruct (process_env "GOOGLE_API_KEY") as [k | ]; [ | intros H; discriminate H ].
    destruct (nonempty k); [ | intros H; discriminate H ].
    intros _. right. split; [ left | ]; reflexivity.
Qed.

(** X10. With a key and a valid prompt, the single-answer endpoint makes
    one upstream call and answers 200 with the text it returned; when the
    call fails it answers 500 with the fixed message, the upstream error
    going to the log only. *)
Theorem chat_relays_text_or_hides_error (body : value) (w : world) (p : string) :
  nonempty apiKey = true ->
  get body "prompt" = Str p ->
  nonempty p = true ->
  let es := effects_of (chat_once body) w in
  (forall text,
      generateContent apiKey gemini_model p = inr text ->
      es = [GenerateContent apiKey gemini_model p;
            ResJson 200 (Obj [("text", Str text)])])
  /\ (forall e,
        generateContent apiKey gemini_model p = inl e ->
        es = [GenerateContent apiKey gemini_model p;
              ConsoleError "Gemini chat error:" e;
              ResJson 500 (Obj [("error", Str "Failed to generate response")])]).
Proof.
  intros Hk Hb Hp es. subst es.
  rewrite (chat_valid_trace body w p Hk Hb Hp).
  split; intros r Hr; rewrite Hr; reflexivity.
Qed.

(** X11. With a key configured, a prompt that is missing, empty or not a
    string is answered with 400 before any upstream call: by the streaming
    endpoint for every request, by the single-answer endpoint for every
    request that has a body.  Without a body the single-answer endpoint
    throws at line 103 and the catch answers 500, again with no upstream
    call. *)
Theorem invalid_prompt_is_rejected_before_upstream (body : value) (w : world) :
  nonempty apiKey = true ->
  negb (truthy (get body "prompt"))
  || negb (String.eqb (typeof (get body "prompt")) "string") = true ->
  effects_of (relay body) w
  = [ResWriteHead 400 json_headers;
     ResEnd (Some (stringify_obj1 "error" "Invalid prompt"))]
  /\ pulls (effects_of (relay body) w) = 0%nat
  /\ (present body = true ->
      effects_of (chat_once body) w
      = [ResJson 400 (Obj [("error", Str "Invalid prompt")])])
  /\ (present body = false ->
      exists e,
        effects_of (chat_once body) w
        = [ConsoleError "Gemini chat error:" e;
           ResJson 500 (Obj [("error", Str "Failed to generate response")])]).
Proof.
  intros Hk Hp.
  rewrite (relay_invalid_prompt_trace process_env generateContentStream body w Hk Hp).
  split; [ reflexivity | ]. split; [ reflexivity | ]. split.
  - intros Hb. apply (chat_invalid_prompt_trace process_env generateContent body w Hb Hk Hp).
  - intros Hb. apply (chat_absent_trace process_env generateContent body w Hb).
Qed.

(** X12. Whenever one of the generation endpoints calls the upstream, it
    does so with the fixed model, with the prompt of the body unchanged,
    and with a non-empty key taken from GEMINI_API_KEY or, when that is
    unset or empty, from GOOGLE_API_KEY. *)
Theorem upstream_call_arguments (body : value) (w : world) (key model prompt : string) :
  In (GenerateContent key model prompt) (effects_of (chat_once body) w)
  \/ In (GenerateContentStream key model prompt) (effects_of (relay body) w) ->
  model = "gemini-1.5-flash"
  /\ get body "prompt" = Str prompt
  /\ nonempty prompt = true
  /\ nonempty key = true
  /\ (process_env "GEMINI_API_KEY" = Some key
      \/ ((process_env "GEMINI_API_KEY" = None \/ process_env "GEMINI_API_KEY" = Some "")
          /\ process_env "GOOGLE_API_KEY" = Some key)).
Proof.
  intros Hin.
  destruct (nonempty apiKey) eqn:Hk.
  2: { rewrite (relay_unconfigured_trace process_env generateContentStream body w Hk) in Hin.
       destruct (present body) eqn:Hb.
       - rewrite (chat_unconfigured_trace process_env generateContent body w Hb Hk) in Hin.
         simpl in Hin. destruct Hin as [[H | []] | [H | [H | []]]]; discriminate H.
       - destruct (chat_absent_trace process_env generateContent body w Hb) as [e He].
         rewrite He in Hin. simpl in Hin.
         destruct Hin as [[H | [H | []]] | [H | [H | []]]]; discriminate H. }
  destruct (negb (truthy (get body "prompt"))
            || negb (String.eqb (typeof (get body "prompt")) "string")) eqn:Hv.
  { rewrite (relay_invalid_prompt_trace process_env generateContentStream body w Hk Hv) in Hin.
    destruct (present body) eqn:Hb.
    - rewrite (chat_invalid_prompt_trace process_env generateContent body w Hb Hk Hv) in Hin.
      simpl in Hin. destruct Hin as [[H | []] | [H | [H | []]]]; discriminate H.
    - destruct (chat_absent_trace process_env generateContent body w Hb) as [e He].
      rewrite He in Hin. simpl in Hin.
      destruct Hin as [[H | [H | []]] | [H | [H | []]]]; discriminate H. }
  destruct (valid_prompt_is_string _ Hv) as [p [Hb Hp]].
  assert (Hcall : key = apiKey /\ model = gemini_model /\ prompt = p).
  { destruct Hin as [Hin | Hin].
    - rewrite (chat_valid_trace body w p Hk Hb Hp) in Hin.
      destruct Hin as [H | Hin]; [ injection H as <- <- <-; auto | ].
      destruct (generateContent _ _ _); simpl in Hin.
      + destruct Hin as [H | [H | []]]; discriminate H.
      + destruct Hin as [H | []]; discriminate H.
    - destruct (generateContentStream apiKey gemini_model p) as [e | s] eqn:Hs.
      + rewrite (relay_upstream_rejects process_env generateContentStream body w p e
                   Hk Hb Hp Hs) in Hin.
        simpl in Hin.
        destruct Hin as [H | [H | [H | [H | [H | []]]]]]; try discriminate H.
        injection H as <- <- <-. auto.
      + rewrite (relay_session_effects process_env generateContentStream body w p s
                   Hk Hb Hp Hs) in Hin.
        unfold session_trace in Hin. simpl in Hin.
        destruct Hin as [H | [H | Hin]]; [ discriminate H | injection H as <- <- <-; auto | ].
        apply in_app_or in Hin. destruct Hin as [Hin | Hin].
        * apply relay_trace_elements in Hin.
          destruct Hin as [H | [t H]]; discriminate H.
        * destruct (stream_result s); simpl in Hin;
            destruct Hin as [H | [H | [H | []]]]; discriminate H. }
  destruct Hcall as [-> [-> ->]].
  repeat split; auto. apply apiKey_origin, Hk.
Qed.

End GenerationEdges.

(** ** The relay, continued *)

Section RelayEdges.

Variable process_env : string -> option string.
Variable generateContentStream : string -> string -> string -> exn + stream.

Local Notation relay := (chat_stream process_env generateContentStream).
Local Notation apiKey := (gemini_apiKey process_env).

(** X13. When the upstream call itself is rejected, the status 200 is
    already sent: the failure shows only as the error event, with the fixed
    reason, followed by the close; the iterator is never pulled. *)
Theorem rejected_upstream_call_ends_in_error_event
    (body : value) (w : world) (p : string) (e : exn) :
  nonempty apiKey = true ->
  get body "prompt" = Str p ->
  nonempty p = true ->
  generateContentStream apiKey gemini_model p = inl e ->
  wire (effects_of (relay body) w)
  = [ResWriteHead 200 sse_headers; ResWrite error_event; ResEnd None]
  /\ pulls (effects_of (relay body) w) = 0%nat.
Proof.
  intros Hk Hb Hp Hs.
  rewrite (relay_upstream_rejects process_env generateContentStream body w p e Hk Hb Hp Hs).
  split; reflexivity.
Qed.


(** X15. The relay never runs ahead of the client: when it makes pull
    number [k + 1] it has made exactly [k] pulls and written exactly the
    data events of the first [k] fragments. *)
Theorem relay_writes_before_next_pull
    (body : value) (w : world) (p : string) (frags : list string) (x : ending) (k : nat) :
  nonempty apiKey = true ->
  get body "prompt" = Str p ->
  nonempty p = true ->
  generateContentStream apiKey gemini_model p = inr (stream_of frags x) ->
  (k <= List.length frags)%nat ->
  written (before_pull k (effects_of (relay body) w))
  = map data_event (filter nonempty (firstn k frags))
  /\ pulls (before_pull k (effects_of (relay body) w)) = k.
Proof.
  intros Hk Hb Hp Hs Hlen.
  rewrite (relay_session_effects process_env generateContentStream body w p _ Hk Hb Hp Hs).
  unfold session_trace.
  destruct (before_pull_relay_trace x
              (closing (stream_result (stream_of frags x))) frags k Hlen) as [Hw Hn].
  split.
  - simpl. exact Hw.
  - simpl. unfold pulls in *. simpl. exact Hn.
Qed.

End RelayEdges.

(** ** The text of a data event *)

Lemma has_char_app (c : ascii) (a b : string) :
  has_char c (a ++ b) = has_char c a || has_char c b.
Proof.
  induction a as [ | x a IH]; [ reflexivity | ].
  simpl. rewrite IH. apply orb_assoc.
Qed.

Lemma quote_char_no_line_break (c : ascii) :
  has_char LF (quote_char c) = false /\ has_char CR (quote_char c) = false.
Proof.
  destruct c as [[|] [|] [|] [|] [|] [|] [|] [|]]; split; vm_compute; reflexivity.
Qed.

Lemma quote_chars_no_line_break (s : string) :
  has_char LF (quote_chars s) = false /\ has_char CR (quote_chars s) = false.
Proof.
  induction s as [ | c s [IH1 IH2]]; [ split; reflexivity | ].
  destruct (quote_char_no_line_break c) as [H1 H2].
  simpl. rewrite !has_char_app, H1, H2, IH1, IH2. split; reflexivity.
Qed.

(** X16. Whatever the text of a fragment, its data event is one line
    followed by a blank line: the line holds no line feed and no carriage
    return, so a fragment cannot break the framing of the event stream. *)
Theorem data_event_is_one_line (text : string) :
  exists line,
    data_event text = line ++ LFLF
    /\ has_char LF line = false
    /\ has_char CR line = false.
Proof.
  exists ("data: " ++ stringify_obj1 "text" text).
  destruct (quote_chars_no_line_break text) as [H1 H2].
  split; [ | split ].
  - unfold data_event. simpl. reflexivity.
  - unfold stringify_obj1, stringify_string. simpl.
    rewrite !has_char_app, H1. reflexivity.
  - unfold stringify_obj1, stringify_string. simpl.
    rewrite !has_char_app, H2. reflexivity.
Qed.

(** X17. Different fragment texts give different data events: the text of
    a fragment can be read back from its event. *)
Theorem data_event_injective (t1 t2 : string) :
  data_event t1 = data_event t2 -> t1 = t2.
Proof.
  unfold data_event, stringify_obj1, stringify_string. intros H.
  apply append_cancel_l in H. apply append_cancel_r in H.
  apply append_cancel_l in H. apply append_cancel_l in H. apply append_cancel_l in H.
  apply append_cancel_r in H.
  assert (H' : String dquote "" ++ quote_chars t1 ++ String dquote ""
               = String dquote "" ++ quote_chars t2 ++ String dquote "") by exact H.
  apply append_cancel_l in H'.
  apply (f_equal unquote_chars) in H'.
  rewrite !unquote_quote_chars in H'.
  apply append_cancel_r in H'. exact H'.
Qed.

(** ** The port *)

(** X18. The port is never zero and never NaN: it is what PORT reads as
    when that is a non-zero number, and 3000 when PORT is unset or reads as
    zero or NaN. *)
Theorem port_falls_back_to_3000
    (process_env : string -> option string) (StringToNumber : string -> number) :
  truthy (Num (port process_env StringToNumber)) = true
  /\ (process_env "PORT" = None -> port process_env StringToNumber = of_Z 3000)
  /\ (forall s,
        process_env "PORT" = Some s ->
        port process_env StringToNumber
        = if truthy (Num (StringToNumber s)) then StringToNumber s else of_Z 3000).
Proof.
  unfold port. destruct (process_env "PORT") as [s | ].
  - split; [ | split ].
    + destruct (truthy (Num (StringToNumber s))) eqn:H; [ exact H | reflexivity ].
    + intros H. discriminate H.
    + intros s' H. injection H as <-. reflexivity.
  - split; [ reflexivity | split ].
    + intros _. reflexivity.
    + intros s H. discriminate H.
Qed.

(** ** One answer per request *)


(** ** The further properties at concrete requests *)

Lemma non_string_signature_never_verifies_witness :
  published
    (effects_of
       (verify_payment env_set toy_hmac toy_number_to_string toy_object_to_string
          (Obj [("razorpay_order_id", Str "order_1");
                ("razorpay_payment_id", Str "pay_1");
                ("razorpay_signature", Arr [Str (toy_hmac "s3cret" "order_1|pay_1")])]))
       (start 0 None))
  = [].
Proof.
  apply (non_string_signature_never_verifies
           env_set toy_hmac toy_number_to_string toy_object_to_string
           (Obj [("razorpay_order_id", Str "order_1");
                 ("razorpay_payment_id", Str "pay_1");
                 ("razorpay_signature", Arr [Str (toy_hmac "s3cret" "order_1|pay_1")])])
           (start 0 None) "order_1" "pay_1");
    reflexivity.
Defined.

Lemma unconvertible_identifier_is_500_witness :
  status_codes
    (effects_of
       (verify_payment env_set toy_hmac toy_number_to_string throwing_object_to_string
          (Obj [("razorpay_order_id", Obj [("toString", Num (of_Z 1))]);
                ("razorpay_payment_id", Str "pay_1");
                ("razorpay_signature", Str "abc")]))
       (start 0 None))
  = [500].
Proof.
  rewrite (proj1 (unconvertible_identifier_is_500
                    env_set toy_hmac toy_number_to_string throwing_object_to_string
                    (Obj [("razorpay_order_id", Obj [("toString", Num (of_Z 1))]);
                          ("razorpay_payment_id", Str "pay_1");
                          ("razorpay_signature", Str "abc")])
                    (start 0 None)
                    "TypeError: Cannot convert object to primitive value"
                    eq_refl eq_refl eq_refl (or_introl eq_refl))).
  reflexivity.
Defined.

Lemma joined_payload_is_ambiguous_witness :
  published
    (effects_of
       (verify_payment env_set toy_hmac toy_number_to_string toy_object_to_string
          (verify_body "a" "b|c" (toy_hmac "s3cret" "a|b|c")))
       (start 0 None))
  = [verified_event (Str "a") (Str "b|c")].
Proof.
  apply (joined_payload_is_ambiguous
           env_set toy_hmac toy_number_to_string toy_object_to_string
           "a|b" "c" "a" "b|c" (toy_hmac "s3cret" "a|b|c") (start 0 None) (start 0 None));
    reflexivity.
Defined.

Lemma upstream_order_failure_is_500_witness :
  status_codes
    (effects_of
       (create_order env_set toy_orders_fail no_string_to_number no_object_to_number
                     (amount_body n19_99))
       (start 0 None))
  = [500].
Proof.
  rewrite (upstream_order_failure_is_500
             env_set toy_orders_fail no_string_to_number no_object_to_number
             (amount_body n19_99) (start 0 None) n19_99 "BAD_REQUEST_ERROR"
             eq_refl eq_refl eq_refl eq_refl eq_refl).
  reflexivity.
Defined.

Lemma missing_amount_is_rejected_witness :
  effects_of
    (create_order env_set toy_orders_create no_string_to_number no_object_to_number
                  (Obj [("currency", Str "INR")]))
    (start 0 None)
  = [ResJson 400 (Obj [("success", Bool false); ("error", Str "Invalid amount")])].
Proof.
  apply (proj1 (missing_amount_is_rejected
                  env_set toy_orders_create no_string_to_number no_object_to_number
                  (Obj [("currency", Str "INR")]) (start 0 None)
                  eq_refl eq_refl eq_refl eq_refl)).
  reflexivity.
Defined.

Lemma sub_unit_amount_is_sent_as_zero_witness :
  exists options,
    order_calls
      (effects_of
         (create_order env_set toy_orders_create no_string_to_number no_object_to_number
                       (amount_body n0_001))
         (start 0 None))
    = [options]
    /\ get options "amount" = Num (S754_zero false)
    /\ truthy (get options "amount") = false.
Proof.
  apply (sub_unit_amount_is_sent_as_zero
           env_set toy_orders_create no_string_to_number no_object_to_number
           (amount_body n0_001) (start 0 None) n0_001
           false 7205759403792794 (-56));
    vm_compute; reflexivity.
Defined.

Lemma sent_amount_is_not_negative_witness :
  exists a,
    get (options_sent (amount_body n19_99)) "amount" = Num a /\ has_sign false a.
Proof.
  apply (sent_amount_is_not_negative
           env_set toy_orders_create no_string_to_number no_object_to_number
           (amount_body n19_99) (start 1700000000000 None)).
  vm_compute. left. reflexivity.
Defined.

Lemma chat_relays_text_or_hides_error_witness :
  effects_of (chat env_set toy_generate_fail (prompt_body "hi")) (start 0 None)
  = [GenerateContent "g-key" gemini_model "hi";
     ConsoleError "Gemini chat error:" "fetch failed";
     ResJson 500 (Obj [("error", Str "Failed to generate response")])].
Proof.
  apply (proj2 (chat_relays_text_or_hides_error
                  env_set toy_generate_fail (prompt_body "hi") (start 0 None) "hi"
                  eq_refl eq_refl eq_refl)).
  reflexivity.
Defined.

Lemma invalid_prompt_is_rejected_before_upstream_witness :
  effects_of (chat env_set toy_generate (prompt_body "")) (start 0 None)
  = [ResJson 400 (Obj [("error", Str "Invalid prompt")])].
Proof.
  apply (proj1 (proj2 (proj2 (invalid_prompt_is_rejected_before_upstream
                                env_set toy_generate four_fragments (prompt_body "")
                                (start 0 None) eq_refl eq_refl)))).
  reflexivity.
Defined.

Lemma upstream_call_arguments_witness :
  env_google_only "GOOGLE_API_KEY" = Some "google-key".
Proof.
  destruct (upstream_call_arguments
              env_google_only toy_generate four_fragments (prompt_body "hi")
              (start 0 None) "google-key" "gemini-1.5-flash" "hi"
              (or_introl (or_introl eq_refl)))
    as [_ [_ [_ [_ [H | [_ H]]]]]].
  - discriminate H.
  - exact H.
Defined.

Lemma rejected_upstream_call_ends_in_error_event_witness :
  wire (effects_of (chat_stream env_set stream_call_fails (prompt_body "hi")) (start 0 None))
  = [ResWriteHead 200 sse_headers; ResWrite error_event; ResEnd None].
Proof.
  apply (rejected_upstream_call_ends_in_error_event
           env_set stream_call_fails (prompt_body "hi") (start 0 None) "hi"
           "503 Service Unavailable");
    reflexivity.
Defined.

Lemma relay_writes_before_next_pull_witness :
  written
    (before_pull 2
       (effects_of (chat_stream env_set four_fragments (prompt_body "hi")) (start 0 None)))
  = [data_event "a"; data_event "b"].
Proof.
  apply (relay_writes_before_next_pull
           env_set four_fragments (prompt_body "hi") (start 0 None) "hi"
           ["a"; "b"; "c"; "d"] Exhausted 2%nat);
    try reflexivity.
  simpl. lia.
Defined.

Lemma data_event_injective_witness : "Hel" = "Hel".
Proof. apply (data_event_injective "Hel" "Hel"). reflexivity. Defined.

Lemma port_falls_back_to_3000_witness :
  port env_port_zero zero_string_to_number = of_Z 3000.
Proof.
  rewrite (proj2 (proj2 (port_falls_back_to_3000 env_port_zero zero_string_to_number))
             "0" eq_refl).
  reflexivity.
Defined.
